(** * microfeedback-core: the request handler of [index.js]

    A shallow embedding of the handler factory exported by [index.js]
    (route dispatch, body validation, the Perspective and Akismet stages,
    the backend call and the [handleErrors] boundary), followed by the
    properties of that handler.

    JavaScript values are a small inductive type; numbers are IEEE 754
    doubles (primitive floats).  [micro]'s [send] is modelled with the one
    way it can fail on such values, a status that Node refuses to write.
    The handler is written in a writer/exception monad: a computation
    yields the list of externally visible events it performed and either a
    value or a thrown value.  The collaborators that are not part of the
    package ([process.env], [micro]'s [json], the Perspective client, the
    Akismet client) are the fields of a record; the backend and its
    attributes are the arguments of the factory. *)

From Stdlib Require Import List String Ascii Bool ZArith PrimFloat.
From Stdlib Require Import Floats.SpecFloat Floats.FloatOps.
Import ListNotations.
Open Scope string_scope.
Open Scope list_scope.

Set Warnings "-register-all".


(** ** JavaScript values *)

Module JS.

(** The values that JSON can carry, and [undefined]. *)
Inductive value : Type :=
| VUndefined
| VNull
| VBool (b : bool)
| VNum (n : float)
| VStr (s : string)
| VArr (items : list value)
| VObj (fields : list (string * value)).

(** [Boolean(v)] / the test of [if], [!], [&&] and [||]. *)
Definition truthy (v : value) : bool :=
  match v with
  | VUndefined | VNull => false
  | VBool b => b
  | VNum n => negb (PrimFloat.eqb n 0%float) && PrimFloat.eqb n n
  | VStr s => negb (String.eqb s "")
  | VArr _ | VObj _ => true
  end.

(** [a || b] on values. *)
Definition or_else (a b : value) : value := if truthy a then a else b.

(** [v === null] *)
Definition is_null (v : value) : bool :=
  match v with VNull => true | _ => false end.

(** [v == null]: the values whose properties cannot be read. *)
Definition nullish (v : value) : bool :=
  match v with VUndefined | VNull => true | _ => false end.

(** Own-property lookup in an object, which lists each property once. *)
Fixpoint lookup (k : string) (fields : list (string * value)) : option value :=
  match fields with
  | [] => None
  | (k', v) :: rest => if String.eqb k k' then Some v else lookup k rest
  end.

(** [obj[k] = v] on an object literal: overwrite in place or append. *)
Fixpoint assign (k : string) (v : value) (fields : list (string * value))
  : list (string * value) :=
  match fields with
  | [] => [(k, v)]
  | (k', v') :: rest =>
      if String.eqb k k' then (k, v) :: rest else (k', v') :: assign k v rest
  end.

(** The integer part of a number, towards zero; 0 for [NaN] and the
    infinities. *)
Definition trunc_Z (n : float) : Z :=
  match Prim2SF n with
  | S754_finite negative m e =>
      let magnitude :=
        if (0 <=? e)%Z then (Z.pos m * 2 ^ e)%Z else (Z.pos m / 2 ^ (- e))%Z in
      if negative then (- magnitude)%Z else magnitude
  | _ => 0%Z
  end.

(** A number without a fractional part. *)
Definition is_integer (n : float) : bool :=
  match Prim2SF n with
  | S754_finite _ m e => ((0 <=? e) || (Z.pos m mod 2 ^ (- e) =? 0))%Z
  | S754_zero _ => true
  | _ => false
  end.

(** [n | 0]: the number as a signed 32-bit integer. *)
Definition ToInt32 (n : float) : Z :=
  let k := (trunc_Z n mod 2 ^ 32)%Z in
  if (k <? 2 ^ 31)%Z then k else (k - 2 ^ 32)%Z.

End JS.
Export JS.

(** ** Outcomes, events and the effect monad *)

(** An awaited call either returns a value or throws one. *)
Inductive outcome (A : Type) : Type :=
| Return (a : A)
| Throw (e : value).
Arguments Return {A} a.
Arguments Throw {A} e.

(** The part of [http.IncomingMessage] the handler reads.  [payload] is the
    raw request body that [micro]'s [json] parses. *)
Record request : Type := mkRequest {
  method : string;
  headers : list (string * value);
  payload : string
}.

(** A [http.ServerResponse] is known by its identity only. *)
Definition response : Type := nat.

(** What the handler does to the outside world, in order. *)
Inductive event : Type :=
| SetHeader (res : response) (name content : string)
| End (res : response)
| ConsoleError (v : value)
| Analyze (clientOptions text options : value)
| CheckSpam (clientOptions comment : value)
| Backend (context : value) (req : request) (res : response)
| Send (res : response) (status data : value).

Definition M (A : Type) : Type := (list event * outcome A)%type.

Definition ret {A} (a : A) : M A := ([], Return a).
Definition throw {A} (e : value) : M A := ([], Throw e).
Definition emit (ev : event) : M unit := ([ev], Return tt).
Definition lift {A} (o : outcome A) : M A := ([], o).

Definition bind {A B} (m : M A) (k : A -> M B) : M B :=
  match m with
  | (t, Return a) => let (t', r) := k a in (t ++ t', r)
  | (t, Throw e) => (t, Throw e)
  end.

(** [try { m } catch (error) { h error }] *)
Definition try_catch {A} (m : M A) (h : value -> M A) : M A :=
  match m with
  | (t, Return a) => (t, Return a)
  | (t, Throw e) => let (t', r) := h e in (t ++ t', r)
  end.

Declare Scope js_scope.
Delimit Scope js_scope with js.
Notation "x <- m ;; k" := (bind m (fun x => k))
  (at level 61, m at next level, right associativity) : js_scope.
Notation "m ;; k" := (bind m (fun _ => k))
  (at level 61, right associativity) : js_scope.
Open Scope js_scope.

(** ** Built-ins and [micro] helpers *)

(** [new Error(message)]: the own properties the handler can read.  The
    stack starts with the error's name and message; the frames that follow
    depend on the call site and are left out. *)
Definition new_Error (name message : string) : list (string * value) :=
  [("stack", VStr (name ++ ": " ++ message)%string); ("message", VStr message)].

Definition TypeError (message : string) : value :=
  VObj (new_Error "TypeError" message).

(** [micro]'s [createError(code, message)]: an [Error] with [statusCode]
    set and [originalError] left undefined. *)
Definition createError (code : float) (message : string) : value :=
  VObj (assign "originalError" VUndefined
         (assign "statusCode" (VNum code) (new_Error "Error" message))).

(** [v.k] / [v[k]].  Reading a property of [undefined] or [null] throws.
    The handler reads no built-in property name, so primitives and arrays
    answer [undefined]. *)
Definition getProp (v : value) (k : string) : outcome value :=
  match v with
  | VUndefined =>
      Throw (TypeError
               ("Cannot read property '" ++ k ++ "' of undefined")%string)
  | VNull =>
      Throw (TypeError ("Cannot read property '" ++ k ++ "' of null")%string)
  | VObj fields =>
      Return (match lookup k fields with Some x => x | None => VUndefined end)
  | VBool _ | VNum _ | VStr _ | VArr _ => Return VUndefined
  end.

(** [console.error(v)]. *)
Definition console_error (v : value) : M unit := emit (ConsoleError v).

Definition dquote : string := String "034"%char EmptyString.

Definition body_required : string :=
  (dquote ++ "body" ++ dquote ++ " is required in request payload")%string.

Definition welcome : string :=
  ("Welcome to the microfeedback API. Send a POST " ++
   "request to send feedback.")%string.

(** Sequencing of property reads: the first one that throws ends the chain. *)
Definition and_then {A B} (o : outcome A) (k : A -> outcome B) : outcome B :=
  match o with
  | Return a => k a
  | Throw e => Throw e
  end.

(** Line 71: [response.attributeScores.TOXICITY.summaryScore.value]. *)
Definition score_of (response : value) : outcome value :=
  and_then (getProp response "attributeScores") (fun attributeScores =>
  and_then (getProp attributeScores "TOXICITY") (fun TOXICITY =>
  and_then (getProp TOXICITY "summaryScore") (fun summaryScore =>
  getProp summaryScore "value"))).

(** ** The collaborators outside the package *)

Record collaborators : Type := mkCollaborators {
  (** [process.env] *)
  env : string -> option string;
  (** [require('./package.json').version] *)
  pkg_version : value;
  (** [micro]'s [json(req)]: the parsed body, or a thrown client error *)
  json : request -> outcome value;
  (** [new Perspective(clientOptions).analyze(text, options)] *)
  analyze : value -> value -> value -> outcome value;
  (** [akismetAPI.client(clientOptions).checkSpam(comment)] *)
  checkSpam : value -> value -> outcome value;
  (** the headers [micro-cors] writes for
      [allowMethods: ['GET', 'POST', 'OPTIONS']] *)
  corsHeaders : list (string * string);
  (** the number a string or an array converts to ([Number(v)]) *)
  toNumber : value -> float
}.

Definition handler : Type := request -> response -> M value.

(** The backend function handed to the factory. *)
Definition backend_fn : Type := value -> request -> response -> outcome value.

(** ** The handler of [index.js] *)

Section Handler.

Variable W : collaborators.

(** [process.env.NAME]: a string, or [undefined] when unset. *)
Definition process_env (name : string) : value :=
  match env W name with Some s => VStr s | None => VUndefined end.

(** [v !== 'false'] *)
Definition not_false_string (v : value) : bool :=
  match v with VStr s => negb (String.eqb s "false") | _ => true end.

(** Lines 9-10: the feature flags. *)
Definition perspectiveEnabled : bool :=
  truthy (process_env "PERSPECTIVE_API_KEY") &&
  not_false_string (process_env "PERSPECTIVE_ENABLED").

Definition akismetEnabled : bool :=
  truthy (process_env "AKISMET_API_KEY") &&
  not_false_string (process_env "AKISMET_ENABLED").

(** Line 97: [Boolean(ALLOW_SPAM && ALLOW_SPAM !== 'false')]. *)
Definition allowSpam : bool :=
  truthy (process_env "ALLOW_SPAM") &&
  not_false_string (process_env "ALLOW_SPAM").

(** [req.headers[name]] *)
Definition header (req : request) (name : string) : value :=
  match lookup name (headers req) with Some v => v | None => VUndefined end.

(** [Number(v)].  Strings and arrays go through number parsing, which is
    left to [toNumber]; a plain object converts to [NaN]. *)
Definition status_number (v : value) : float :=
  match v with
  | VNum n => n
  | VBool b => if b then 1%float else 0%float
  | VNull => 0%float
  | VUndefined | VObj _ => nan
  | VStr _ | VArr _ => toNumber W v
  end.

(** The test of [writeHead] in Node's [http]: [status | 0] must lie between
    100 and 999. *)
Definition sendable (status : value) : bool :=
  let code := ToInt32 (status_number status) in
  (100 <=? code)%Z && (code <=? 999)%Z.

(** What [writeHead] throws for any other status; the offending value,
    which the message quotes, is left out. *)
Definition invalid_status : value :=
  VObj (new_Error "RangeError" "Invalid status code").

(** [micro]'s [send(res, status, data)] for an object [data]: the response
    is written with [res.end], which throws before anything is written when
    the status is not one a response can carry.  [Send] records a response
    that was written.  Every [value] is one [JSON.stringify] accepts. *)
Definition send (res : response) (status data : value) : M value :=
  if sendable status
  then emit (Send res status data) ;; ret VUndefined
  else throw invalid_status.

(** Line 23: [process.env.NODE_ENV === 'dev']. *)
Definition dev_mode : bool :=
  match process_env "NODE_ENV" with
  | VStr s => String.eqb s "dev"
  | _ => false
  end.

(** Lines 19-32. *)
Definition handleErrors (fn : handler) : handler := fun req res =>
  try_catch (fn req res) (fun error =>
    (if dev_mode
     then stack <- lift (getProp error "stack") ;;
          if truthy stack then console_error stack else ret tt
     else ret tt) ;;
    statusCode <- lift (getProp error "statusCode") ;;
    let status := or_else statusCode (VNum 500) in
    message <- lift (getProp error "message") ;;
    send res status (VObj [("status", status); ("message", message)]) ;;
    ret VUndefined).

(** Modelled from the spec: [micro-cors] is not part of the package.  Every
    response carries the cross-origin headers; an [OPTIONS] preflight is
    answered without reaching the wrapped handler. *)
Definition cors (fn : handler) : handler := fun req res =>
  fold_right (fun h k => emit (SetHeader res (fst h) (snd h)) ;; k)
             (ret tt) (corsHeaders W) ;;
  if String.eqb (method req) "OPTIONS"
  then emit (End res) ;; ret VUndefined
  else fn req res.

Variable backend : backend_fn.
Variable attributes : value.

(** [if (attributes) { obj.backend = attributes; }] (lines 56-58, 106-108) *)
Definition with_backend (fields : list (string * value)) : value :=
  VObj (if truthy attributes then assign "backend" attributes fields
        else fields).

(** The [catch] blocks of lines 73-75 and 93-95. *)
Definition log_and_continue (error : value) : M value :=
  stack <- lift (getProp error "stack") ;;
  console_error (or_else stack error) ;;
  ret VNull.

(** Line 68: the options of [new Perspective(...)].  Building either
    client has no effect of its own. *)
Definition perspective_client : value :=
  VObj [("apiKey", process_env "PERSPECTIVE_API_KEY")].

(** Line 70: the second argument of [analyze]. *)
Definition analyze_options : value := VObj [("truncate", VBool true)].

(** Lines 65-76: the final value of [perspective]. *)
Definition perspective_stage (input : value) : M value :=
  if perspectiveEnabled then
    try_catch
      (text <- lift (getProp input "body") ;;
       emit (Analyze perspective_client text analyze_options) ;;
       response <- lift (analyze W perspective_client text analyze_options) ;;
       toxicity <- lift (score_of response) ;;
       ret (VObj [("toxicity", toxicity)]))
      log_and_continue
  else ret VNull.

(** Lines 78-81: the options of [akismetAPI.client(...)]. *)
Definition akismet_client (req : request) : value :=
  VObj [("key", process_env "AKISMET_API_KEY"); ("blog", header req "origin")].

(** Lines 85-91: the argument of [checkSpam], [body] being [input.body]. *)
Definition spam_comment (req : request) (body : value) : value :=
  VObj [("user_ip", header req "remote-addr");
        ("user_agent", header req "user-agent");
        ("referrer", header req "referer");
        ("comment_type", VStr "comment");
        ("comment_content", or_else body (VStr ""))].

(** Lines 77-103: the final value of [akismet], or the spam block. *)
Definition akismet_stage (input : value) (req : request) : M value :=
  if akismetEnabled then
    spam <-
      try_catch
        (body <- lift (getProp input "body") ;;
         emit (CheckSpam (akismet_client req) (spam_comment req body)) ;;
         lift (checkSpam W (akismet_client req) (spam_comment req body)))
        log_and_continue ;;
    if negb (is_null spam) then
      if truthy spam && negb allowSpam
      then throw (createError 400 "Spam detected.")
      else ret (VObj [("spam", spam)])
    else ret VNull
  else ret VNull.

(** Line 104: the first argument of [backend]. *)
Definition moderation_context (input perspective akismet : value) : value :=
  VObj [("input", input); ("perspective", perspective); ("akismet", akismet)].

(** Lines 104-109: the backend call and the 201 answer. *)
Definition deliver (input perspective akismet : value) : handler :=
  fun req res =>
    let ctx := moderation_context input perspective akismet in
    emit (Backend ctx req res) ;;
    result <- lift (backend ctx req res) ;;
    send res (VNum 201) (with_backend [("result", result)]).

(** Lines 44-113: the function wrapped by [cors] and [handleErrors]. *)
Definition route : handler := fun req res =>
  if String.eqb (method req) "GET" then
    let response :=
      [("message", VStr welcome);
       ("core", VObj [("version", pkg_version W);
                      ("perspectiveEnabled", VBool perspectiveEnabled);
                      ("akismetEnabled", VBool akismetEnabled)])] in
    send res (VNum 200) (with_backend response)
  else if String.eqb (method req) "POST" then
    input <- lift (json W req) ;;
    body <- lift (getProp input "body") ;;
    if negb (truthy body) then throw (createError 422 body_required)
    else
      perspective <- perspective_stage input ;;
      akismet <- akismet_stage input req ;;
      deliver input perspective akismet req res
  else
    throw (createError 405 ("Method " ++ method req ++ " not allowed.")%string).

(** Lines 42-114: [module.exports = (backend, attributes) => ...]. *)
Definition module_exports : handler := handleErrors (cors route).

End Handler.

Arguments sendable : simpl never.

(** ** Reading a trace *)

Definition backend_calls (t : list event) : list (value * request * response) :=
  flat_map (fun ev => match ev with
                      | Backend c rq rs => [(c, rq, rs)]
                      | _ => []
                      end) t.

Definition responses (t : list event) : list (response * value * value) :=
  flat_map (fun ev => match ev with
                      | Send rs st d => [(rs, st, d)]
                      | _ => []
                      end) t.

(** The calls to the two moderation services. *)
Definition moderation_calls (t : list event) : list event :=
  filter (fun ev => match ev with
                    | Analyze _ _ _ | CheckSpam _ _ => true
                    | _ => false
                    end) t.

(** The toxicity result for [body], or [null]: what the Perspective
    service answered, when the check is on and the score could be read
    from its answer. *)
Definition toxicity_result (W : collaborators) (body : value) : value :=
  if perspectiveEnabled W then
    match analyze W (perspective_client W) body analyze_options with
    | Return r =>
        match score_of r with
        | Return score => VObj [("toxicity", score)]
        | Throw _ => VNull
        end
    | Throw _ => VNull
    end
  else VNull.

(** The spam verdict for [body], or [null]: what the Akismet service
    answered, when the check is on and it gave an answer other than
    [null]. *)
Definition spam_verdict (W : collaborators) (req : request) (body : value)
  : value :=
  if akismetEnabled W then
    match checkSpam W (akismet_client W req) (spam_comment req body) with
    | Return spam => if is_null spam then VNull else VObj [("spam", spam)]
    | Throw _ => VNull
    end
  else VNull.

(** The spam stage ends the request instead of handing over a verdict. *)
Definition spam_blocked (W : collaborators) (input : value) (req : request)
  : bool :=
  match snd (akismet_stage W input req) with
  | Throw _ => true
  | Return _ => false
  end.

(** Events that neither reach the backend nor answer the client. *)
Definition quiet_event (ev : event) : bool :=
  match ev with
  | Backend _ _ _ | Send _ _ _ => false
  | _ => true
  end.

Definition quiet (t : list event) : Prop := forallb quiet_event t = true.

(** The headers written by [cors] on [res]. *)
Definition cors_trace (W : collaborators) (res : response) : list event :=
  map (fun h => SetHeader res (fst h) (snd h)) (corsHeaders W).

(** What the [catch] of [handleErrors] logs for [error]. *)
Definition error_log (W : collaborators) (error : value) : list event :=
  if dev_mode W then
    match getProp error "stack" with
    | Return stack => if truthy stack then [ConsoleError stack] else []
    | Throw _ => []
    end
  else [].

(** A score in the closed interval from 0 to 1. *)
Definition in_unit_interval (v : value) : bool :=
  match v with
  | VNum n => PrimFloat.leb 0 n && PrimFloat.leb n 1
  | _ => false
  end.

(** A number that is an HTTP status as it stands: an integer from 100 to
    999. *)
Definition is_http_status (v : value) : bool :=
  match v with
  | VNum n => is_integer n && (100 <=? trunc_Z n)%Z && (trunc_Z n <=? 999)%Z
  | _ => false
  end.

(** The status rule as the specification words it: a numeric status code
    is used, anything else gives 500. *)
Definition specified_status (statusCode : value) : value :=
  match statusCode with
  | VNum n => VNum n
  | _ => VNum 500
  end.

(** The calls to each of the two services. *)
Definition is_analyze (ev : event) : bool :=
  match ev with Analyze _ _ _ => true | _ => false end.

Definition is_checkSpam (ev : event) : bool :=
  match ev with CheckSpam _ _ => true | _ => false end.

Definition analyze_calls (t : list event) : list event := filter is_analyze t.

Definition checkSpam_calls (t : list event) : list event :=
  filter is_checkSpam t.

(** What was written with [console.error]. *)
Definition console_lines (t : list event) : list value :=
  flat_map (fun ev => match ev with ConsoleError v => [v] | _ => [] end) t.

(** Every event of a computation satisfies [P]. *)
Definition all_events (P : event -> bool) {A} (m : M A) : Prop :=
  forallb P (fst m) = true.

(** A thrown value the boundary can answer for: its [statusCode] can be
    read and the status chosen on line 26 is one a response can carry. *)
Definition renderable (W : collaborators) (e : value) : bool :=
  match getProp e "statusCode" with
  | Return statusCode => sendable W (or_else statusCode (VNum 500))
  | Throw _ => false
  end.

(** A computation that, when it throws, throws a value the boundary can
    answer for. *)
Definition throws_renderable (W : collaborators) {A} (m : M A) : Prop :=
  forall e, snd m = Throw e -> renderable W e = true.

(** ** Sample deployments *)

Module Sample.

(** No key configured: both checks are off. *)
Definition bare_env (name : string) : option string := None.

(** Both keys configured, development logging on. *)
Definition full_env (name : string) : option string :=
  if String.eqb name "PERSPECTIVE_API_KEY" then Some "perspective-key"
  else if String.eqb name "AKISMET_API_KEY" then Some "akismet-key"
  else if String.eqb name "NODE_ENV" then Some "dev"
  else None.

(** As [full_env], with the allow-spam override. *)
Definition lenient_env (name : string) : option string :=
  if String.eqb name "ALLOW_SPAM" then Some "true" else full_env name.

(** A deployment whose collaborators answer the same way on every call.
    No error of these deployments has a string or an array as status code,
    so the number conversion is never consulted. *)
Definition world (e : string -> option string)
    (parsed toxicity verdict : outcome value) : collaborators :=
  mkCollaborators e (VStr "1.0.0")
    (fun _ => parsed) (fun _ _ _ => toxicity) (fun _ _ => verdict)
    [("Access-Control-Allow-Origin", "*");
     ("Access-Control-Allow-Methods", "GET,POST,OPTIONS")]
    (fun _ => nan).

(** The response of the Perspective service carrying [score]. *)
Definition scored (score : value) : value :=
  VObj [("attributeScores",
         VObj [("TOXICITY",
                VObj [("summaryScore", VObj [("value", score)])])])].

Definition feedback : value := VObj [("body", VStr "nice app!")].

Definition post : request :=
  mkRequest "POST" [("origin", VStr "https://example.org")] "feedback".

Definition get : request := mkRequest "GET" [] "".

(** A backend that reports success. *)
Definition ok_backend : backend_fn :=
  fun _ _ _ => Return (VObj [("status", VStr "ok")]).

(** A backend that fails with the error [e]. *)
Definition failing_backend (e : value) : backend_fn := fun _ _ _ => Throw e.

Definition email : value :=
  VObj [("name", VStr "email"); ("version", VStr "1.0.0")].

End Sample.

(** ** The monad *)

Lemma bind_Return {A B} (m : M A) (k : A -> M B) t a :
  m = (t, Return a) -> bind m k = (t ++ fst (k a), snd (k a)).
Proof. intros ->. unfold bind. now destruct (k a). Qed.

Lemma bind_Throw {A B} (m : M A) (k : A -> M B) t e :
  m = (t, Throw e) -> bind m k = (t, Throw e).
Proof. now intros ->. Qed.

Lemma bind_lift_Return {A B} (a : A) (k : A -> M B) :
  bind (lift (Return a)) k = k a.
Proof. unfold bind, lift. now destruct (k a). Qed.

Lemma bind_emit {B} ev (k : unit -> M B) :
  bind (emit ev) k = (ev :: fst (k tt), snd (k tt)).
Proof. unfold bind, emit. now destruct (k tt). Qed.

Lemma try_catch_Return {A} (m : M A) h t a :
  m = (t, Return a) -> try_catch m h = (t, Return a).
Proof. now intros ->. Qed.

Lemma try_catch_Throw {A} (m : M A) h t e :
  m = (t, Throw e) -> try_catch m h = (t ++ fst (h e), snd (h e)).
Proof. intros ->. unfold try_catch. now destruct (h e). Qed.

Lemma surjective_run {A} (m : M A) : m = (fst m, snd m).
Proof. now destruct m. Qed.

(** ** Reading traces *)

Lemma backend_calls_app t1 t2 :
  backend_calls (t1 ++ t2) = backend_calls t1 ++ backend_calls t2.
Proof. apply flat_map_app. Qed.

Lemma responses_app t1 t2 :
  responses (t1 ++ t2) = responses t1 ++ responses t2.
Proof. apply flat_map_app. Qed.

Lemma moderation_calls_app t1 t2 :
  moderation_calls (t1 ++ t2) = moderation_calls t1 ++ moderation_calls t2.
Proof. apply filter_app. Qed.

Lemma quiet_nil : quiet [].
Proof. reflexivity. Qed.

Lemma quiet_backend_calls t : quiet t -> backend_calls t = [].
Proof.
  unfold quiet. induction t as [|ev t IH]; simpl; [reflexivity|].
  intros H. apply andb_prop in H as [Hev Ht].
  destruct ev; simpl in *; try discriminate; auto.
Qed.

Lemma quiet_responses t : quiet t -> responses t = [].
Proof.
  unfold quiet. induction t as [|ev t IH]; simpl; [reflexivity|].
  intros H. apply andb_prop in H as [Hev Ht].
  destruct ev; simpl in *; try discriminate; auto.
Qed.

Lemma quiet_cors_trace W res : quiet (cors_trace W res).
Proof.
  unfold quiet, cors_trace. induction (corsHeaders W); simpl; auto.
Qed.

Lemma moderation_calls_cors_trace W res :
  moderation_calls (cors_trace W res) = [].
Proof.
  unfold cors_trace. induction (corsHeaders W); simpl; auto.
Qed.

Lemma quiet_error_log W e : quiet (error_log W e).
Proof.
  unfold error_log. destruct (dev_mode W); [|apply quiet_nil].
  destruct (getProp e "stack") as [st|]; [|apply quiet_nil].
  destruct (truthy st); reflexivity.
Qed.

(** ** Property reads *)

Lemma getProp_throws v k e : getProp v k = Throw e -> nullish e = false.
Proof. destruct v; simpl; intros H; inversion H; reflexivity. Qed.

Lemma getProp_defined v k :
  nullish v = false -> exists x, getProp v k = Return x.
Proof. destruct v; simpl; intros H; try discriminate; eauto. Qed.

Lemma getProp_Return_not_nullish v k x :
  getProp v k = Return x -> nullish v = false.
Proof. destruct v; simpl; intros H; try discriminate; reflexivity. Qed.

Lemma truthy_not_null v : truthy v = true -> is_null v = false.
Proof. destruct v; simpl; intros H; try discriminate; reflexivity. Qed.

Lemma or_else_truthy a b : truthy a = true -> or_else a b = a.
Proof. unfold or_else. now intros ->. Qed.

Example truthy_nan : truthy (VNum PrimFloat.nan) = false.
Proof. reflexivity. Qed.

Example truthy_zero : truthy (VNum 0%float) = false.
Proof. reflexivity. Qed.

Example truthy_code : truthy (VNum 422%float) = true.
Proof. reflexivity. Qed.

(** ** Status codes *)

Lemma trunc_Z_truthy n : trunc_Z n <> 0%Z -> truthy (VNum n) = true.
Proof.
  unfold trunc_Z, Prim2SF, truthy, is_nan, is_zero.
  destruct (PrimFloat.eqb n n); simpl; [|intros H; now elim H].
  destruct (PrimFloat.eqb n zero) eqn:E; simpl; [intros H; now elim H|].
  intros _. unfold zero in E. now rewrite E.
Qed.

Lemma ToInt32_small n :
  (0 <= trunc_Z n < 2 ^ 31)%Z -> ToInt32 n = trunc_Z n.
Proof.
  intros H. unfold ToInt32.
  rewrite Z.mod_small by (split; [apply H | apply Z.lt_trans with (2 ^ 31)%Z;
                                   [apply H | reflexivity]]).
  destruct (Z.ltb_spec (trunc_Z n) (2 ^ 31)%Z) as [_|Hge]; [reflexivity|].
  exfalso. apply (Z.lt_irrefl (trunc_Z n)).
  apply Z.lt_le_trans with (2 ^ 31)%Z; [apply H | exact Hge].
Qed.

Lemma http_status_range v :
  is_http_status v = true ->
  exists n, v = VNum n /\ (100 <= trunc_Z n <= 999)%Z.
Proof.
  destruct v; simpl; try discriminate. intros H.
  apply andb_prop in H as [H Hhi]. apply andb_prop in H as [_ Hlo].
  exists n. split; [reflexivity|].
  split; [now apply Z.leb_le | now apply Z.leb_le].
Qed.

Lemma http_status_truthy v : is_http_status v = true -> truthy v = true.
Proof.
  intros H. destruct (http_status_range v H) as (n & -> & Hlo & _).
  apply trunc_Z_truthy. intros E. rewrite E in Hlo. now apply Hlo.
Qed.

(** ** The two wrappers *)

Section Wrappers.

Variable W : collaborators.

Lemma cors_headers_run res (hs : list (string * string)) :
  fold_right (fun h k => emit (SetHeader res (fst h) (snd h)) ;; k) (ret tt) hs
  = (map (fun h => SetHeader res (fst h) (snd h)) hs, Return tt).
Proof.
  induction hs as [|h hs IH]; cbn [fold_right map]; [reflexivity|].
  rewrite bind_emit, IH. reflexivity.
Qed.

Lemma cors_run (fn : handler) req res :
  String.eqb (method req) "OPTIONS" = false ->
  cors W fn req res = (cors_trace W res ++ fst (fn req res), snd (fn req res)).
Proof.
  intros Hm. unfold cors. rewrite cors_headers_run, Hm.
  erewrite bind_Return by reflexivity. reflexivity.
Qed.

Lemma http_status_sendable v : is_http_status v = true -> sendable W v = true.
Proof.
  intros H. destruct (http_status_range v H) as (n & -> & Hlo & Hhi).
  unfold sendable. simpl status_number.
  rewrite ToInt32_small.
  - apply andb_true_intro. split; now apply Z.leb_le.
  - split.
    + apply Z.le_trans with 100%Z; [discriminate | exact Hlo].
    + apply Z.le_lt_trans with 999%Z; [exact Hhi | reflexivity].
Qed.

Lemma send_written res status data :
  sendable W status = true ->
  send W res status data = ([Send res status data], Return VUndefined).
Proof. intros H. unfold send. now rewrite H. Qed.

Lemma send_refused res status data :
  sendable W status = false ->
  send W res status data = ([], Throw invalid_status).
Proof. intros H. unfold send. now rewrite H. Qed.

Lemma handleErrors_Return (fn : handler) req res t a :
  fn req res = (t, Return a) -> handleErrors W fn req res = (t, Return a).
Proof. intros H. unfold handleErrors. now rewrite H. Qed.

(** The [catch] block up to the call of [send], on a thrown value whose
    properties can be read. *)
Lemma handleErrors_catch (fn : handler) req res t e statusCode message :
  fn req res = (t, Throw e) ->
  getProp e "statusCode" = Return statusCode ->
  getProp e "message" = Return message ->
  let status := or_else statusCode (VNum 500) in
  let sent :=
    send W res status (VObj [("status", status); ("message", message)]) in
  handleErrors W fn req res =
    (t ++ error_log W e ++ fst sent,
     match snd sent with
     | Return _ => Return VUndefined
     | Throw x => Throw x
     end).
Proof.
  intros H Hs Hm status sent. subst sent status. unfold handleErrors.
  rewrite (try_catch_Throw _ _ _ _ H). unfold error_log.
  destruct (getProp_defined e "stack" (getProp_Return_not_nullish _ _ _ Hs))
    as [st Hst].
  rewrite Hs, Hm, Hst, !bind_lift_Return.
  destruct (send W res (or_else statusCode (VNum 500))
              (VObj [("status", or_else statusCode (VNum 500));
                     ("message", message)])) as [ts [x|x]];
    destruct (dev_mode W); simpl; try destruct (truthy st);
    unfold console_error, emit, ret, bind; simpl; rewrite ?app_nil_r;
    reflexivity.
Qed.

(** The [catch] block on a thrown value whose properties can be read and
    whose status a response can carry. *)
Lemma handleErrors_Throw (fn : handler) req res t e statusCode message :
  fn req res = (t, Throw e) ->
  getProp e "statusCode" = Return statusCode ->
  getProp e "message" = Return message ->
  let status := or_else statusCode (VNum 500) in
  sendable W status = true ->
  handleErrors W fn req res =
    (t ++ error_log W e ++
       [Send res status (VObj [("status", status); ("message", message)])],
     Return VUndefined).
Proof.
  intros H Hs Hm status Hok.
  rewrite (handleErrors_catch fn req res t e statusCode message H Hs Hm).
  fold status. now rewrite (send_written res status _ Hok).
Qed.

(** The same with a status no response can carry: [send] throws inside the
    [catch], nothing is written and the [RangeError] escapes. *)
Lemma handleErrors_refused (fn : handler) req res t e statusCode message :
  fn req res = (t, Throw e) ->
  getProp e "statusCode" = Return statusCode ->
  getProp e "message" = Return message ->
  sendable W (or_else statusCode (VNum 500)) = false ->
  handleErrors W fn req res = (t ++ error_log W e, Throw invalid_status).
Proof.
  intros H Hs Hm Hno.
  rewrite (handleErrors_catch fn req res t e statusCode message H Hs Hm).
  rewrite (send_refused res _ _ Hno). simpl. now rewrite app_nil_r.
Qed.

(** The [catch] block on [undefined] or [null]: its first property read
    throws, and nothing is sent. *)
Lemma handleErrors_nullish (fn : handler) req res t e :
  fn req res = (t, Throw e) ->
  nullish e = true ->
  exists message,
    handleErrors W fn req res = (t, Throw (TypeError message)).
Proof.
  intros H He. unfold handleErrors. rewrite (try_catch_Throw _ _ _ _ H).
  destruct e; try discriminate He; destruct (dev_mode W); simpl;
    rewrite app_nil_r; eexists; reflexivity.
Qed.

(** The boundary only logs and sends: it calls neither the backend nor a
    moderation service. *)
Lemma handleErrors_appends (fn : handler) req res :
  exists t',
    fst (handleErrors W fn req res) = fst (fn req res) ++ t' /\
    backend_calls t' = [] /\ moderation_calls t' = [].
Proof.
  destruct (fn req res) as [t [a|e]] eqn:H.
  - rewrite (handleErrors_Return fn req res t a H).
    exists []. simpl. rewrite app_nil_r. auto.
  - destruct (nullish e) eqn:He.
    + destruct (handleErrors_nullish fn req res t e H He) as [m ->].
      exists []. simpl. rewrite app_nil_r. auto.
    + destruct (getProp_defined e "statusCode" He) as [sc Hs].
      destruct (getProp_defined e "message" He) as [msg Hm].
      rewrite (handleErrors_catch fn req res t e sc msg H Hs Hm). simpl fst.
      eexists. split; [reflexivity|].
      rewrite backend_calls_app, moderation_calls_app,
        (quiet_backend_calls _ (quiet_error_log W e)).
      unfold send. destruct (sendable W (or_else sc (VNum 500))); simpl;
        (split; [reflexivity|]); rewrite app_nil_r;
        unfold error_log; destruct (dev_mode W); try reflexivity;
        destruct (getProp e "stack") as [st|]; try reflexivity;
        destruct (truthy st); reflexivity.
Qed.

Lemma handleErrors_backend_calls (fn : handler) req res :
  backend_calls (fst (handleErrors W fn req res)) =
  backend_calls (fst (fn req res)).
Proof.
  destruct (handleErrors_appends fn req res) as (t' & -> & Hb & _).
  rewrite backend_calls_app, Hb. apply app_nil_r.
Qed.

Lemma handleErrors_moderation_calls (fn : handler) req res :
  moderation_calls (fst (handleErrors W fn req res)) =
  moderation_calls (fst (fn req res)).
Proof.
  destruct (handleErrors_appends fn req res) as (t' & -> & _ & Hm).
  rewrite moderation_calls_app, Hm. apply app_nil_r.
Qed.

End Wrappers.

(** ** The moderation stages *)

Lemma log_and_continue_run e :
  nullish e = false ->
  exists v, log_and_continue e = ([ConsoleError v], Return VNull).
Proof.
  intros He. destruct (getProp_defined e "stack" He) as [st Hst].
  exists (or_else st e). unfold log_and_continue. rewrite Hst. reflexivity.
Qed.

Lemma score_of_throws r e : score_of r = Throw e -> nullish e = false.
Proof.
  unfold score_of, and_then.
  repeat match goal with
         | |- context [match getProp ?v ?k with _ => _ end] =>
             let E := fresh "E" in
             destruct (getProp v k) eqn:E;
             [|intros H; inversion H; subst; eapply getProp_throws; eassumption]
         end.
  apply getProp_throws.
Qed.

Section Stages.

Variable W : collaborators.

(** The two service clients reject with an error value, never with
    [undefined] or [null]. *)
Hypothesis analyze_rejects :
  forall c text o e, analyze W c text o = Throw e -> nullish e = false.
Hypothesis checkSpam_rejects :
  forall c comment e, checkSpam W c comment = Throw e -> nullish e = false.

(** With the toxicity check switched on and a failing attempt, the stage
    logs the failure and leaves [perspective] at [null]. *)
Lemma perspective_stage_failure input body :
  perspectiveEnabled W = true ->
  getProp input "body" = Return body ->
  (exists e, analyze W (perspective_client W) body analyze_options = Throw e) \/
  (exists r e, analyze W (perspective_client W) body analyze_options = Return r
               /\ score_of r = Throw e) ->
  exists v,
    perspective_stage W input =
      ([Analyze (perspective_client W) body analyze_options; ConsoleError v],
       Return VNull).
Proof.
  intros Hen Hb Hfail. unfold perspective_stage. rewrite Hen, Hb.
  rewrite bind_lift_Return, bind_emit.
  destruct Hfail as [[e Ha]|(r & e & Ha & Hs)].
  - destruct (log_and_continue_run _ (analyze_rejects _ _ _ _ Ha)) as [v Hv].
    exists v. rewrite Ha. simpl. rewrite Hv. reflexivity.
  - destruct (log_and_continue_run _ (score_of_throws _ _ Hs)) as [v Hv].
    exists v. rewrite Ha, bind_lift_Return, Hs. simpl. rewrite Hv. reflexivity.
Qed.

(** With the toxicity check switched on and a successful attempt, the value
    read from the response is stored as it is. *)
Lemma perspective_stage_success input body r score :
  perspectiveEnabled W = true ->
  getProp input "body" = Return body ->
  analyze W (perspective_client W) body analyze_options = Return r ->
  score_of r = Return score ->
  perspective_stage W input =
    ([Analyze (perspective_client W) body analyze_options],
     Return (VObj [("toxicity", score)])).
Proof.
  intros Hen Hb Ha Hs. unfold perspective_stage.
  rewrite Hen, Hb, bind_lift_Return, bind_emit, Ha, bind_lift_Return, Hs.
  reflexivity.
Qed.

(** The toxicity stage always hands over to the spam stage. *)
Lemma perspective_stage_total input body :
  getProp input "body" = Return body ->
  exists t p,
    perspective_stage W input = (t, Return p) /\ quiet t /\
    moderation_calls t =
      (if perspectiveEnabled W
       then [Analyze (perspective_client W) body analyze_options] else []) /\
    (p = VNull \/ exists score, p = VObj [("toxicity", score)]).
Proof.
  intros Hb. destruct (perspectiveEnabled W) eqn:Hen.
  - destruct (analyze W (perspective_client W) body analyze_options)
      as [r|e] eqn:Ha.
    + destruct (score_of r) as [score|e] eqn:Hs.
      * rewrite (perspective_stage_success _ _ _ _ Hen Hb Ha Hs).
        do 2 eexists. repeat split; eauto.
      * destruct (perspective_stage_failure input body Hen Hb) as [v Hv];
          [right; eauto|].
        rewrite Hv. do 2 eexists. repeat split; eauto.
    + destruct (perspective_stage_failure input body Hen Hb) as [v Hv];
        [left; eauto|].
      rewrite Hv. do 2 eexists. repeat split; eauto.
  - unfold perspective_stage. rewrite Hen.
    do 2 eexists. repeat split; eauto.
Qed.

(** The verdict of a spam check that answered. *)
Lemma akismet_stage_verdict input req body spam :
  akismetEnabled W = true ->
  getProp input "body" = Return body ->
  checkSpam W (akismet_client W req) (spam_comment req body) = Return spam ->
  akismet_stage W input req =
    ([CheckSpam (akismet_client W req) (spam_comment req body)],
     if negb (is_null spam) then
       if truthy spam && negb (allowSpam W)
       then Throw (createError 400 "Spam detected.")
       else Return (VObj [("spam", spam)])
     else Return VNull).
Proof.
  intros Hen Hb Hc. unfold akismet_stage.
  rewrite Hen, Hb, bind_lift_Return, bind_emit, Hc. simpl.
  destruct (is_null spam); simpl; [reflexivity|].
  destruct (truthy spam && negb (allowSpam W)); reflexivity.
Qed.

(** A spam check that failed leaves [akismet] at [null]. *)
Lemma akismet_stage_failure input req body e :
  akismetEnabled W = true ->
  getProp input "body" = Return body ->
  checkSpam W (akismet_client W req) (spam_comment req body) = Throw e ->
  exists v,
    akismet_stage W input req =
      ([CheckSpam (akismet_client W req) (spam_comment req body);
        ConsoleError v], Return VNull).
Proof.
  intros Hen Hb Hc. unfold akismet_stage.
  destruct (log_and_continue_run _ (checkSpam_rejects _ _ _ Hc)) as [v Hv].
  exists v. rewrite Hen, Hb, bind_lift_Return, bind_emit, Hc. simpl.
  rewrite Hv. reflexivity.
Qed.

(** The spam stage either blocks with the 400 error or hands over a
    verdict, [null] included. *)
Lemma akismet_stage_cases input req body :
  getProp input "body" = Return body ->
  exists t,
    quiet t /\
    moderation_calls t =
      (if akismetEnabled W
       then [CheckSpam (akismet_client W req) (spam_comment req body)]
       else []) /\
    (akismet_stage W input req = (t, Throw (createError 400 "Spam detected."))
     \/ exists ak, akismet_stage W input req = (t, Return ak) /\
                   (ak = VNull \/ exists spam, ak = VObj [("spam", spam)])).
Proof.
  intros Hb. destruct (akismetEnabled W) eqn:Hen.
  - destruct (checkSpam W (akismet_client W req) (spam_comment req body))
      as [spam|e] eqn:Hc.
    + rewrite (akismet_stage_verdict _ _ _ _ Hen Hb Hc).
      exists [CheckSpam (akismet_client W req) (spam_comment req body)].
      split; [reflexivity|]. split; [reflexivity|].
      destruct (is_null spam), (truthy spam), (allowSpam W); simpl;
        solve [left; reflexivity | right; eauto 6].
    + destruct (akismet_stage_failure _ _ _ _ Hen Hb Hc) as [v Hv].
      rewrite Hv.
      exists [CheckSpam (akismet_client W req) (spam_comment req body);
              ConsoleError v].
      split; [reflexivity|]. split; [reflexivity|]. right; eauto.
  - unfold akismet_stage. rewrite Hen.
    exists []. split; [reflexivity|]. split; [reflexivity|].
    right. exists VNull. split; [reflexivity|now left].
Qed.

(** When the spam stage blocks: the check is on, it answered with a truthy
    verdict, and the allow-spam override is off. *)
Lemma spam_blocked_iff input req body :
  getProp input "body" = Return body ->
  spam_blocked W input req = true <->
  akismetEnabled W = true /\ allowSpam W = false /\
  exists spam,
    checkSpam W (akismet_client W req) (spam_comment req body) = Return spam
    /\ truthy spam = true.
Proof.
  intros Hb. unfold spam_blocked. destruct (akismetEnabled W) eqn:Hen.
  - destruct (checkSpam W (akismet_client W req) (spam_comment req body))
      as [spam|e] eqn:Hc.
    + rewrite (akismet_stage_verdict _ _ _ _ Hen Hb Hc). simpl.
      split.
      * intros H. destruct (is_null spam); [discriminate H|]. simpl in H.
        destruct (truthy spam) eqn:Ht, (allowSpam W); try discriminate H.
        split; [reflexivity|]. split; [reflexivity|]. exists spam. auto.
      * intros (_ & Hallow & spam' & Hs & Ht). injection Hs as <-.
        rewrite (truthy_not_null _ Ht), Ht, Hallow. reflexivity.
    + destruct (akismet_stage_failure _ _ _ _ Hen Hb Hc) as [v ->]. simpl.
      split; [discriminate|]. intros (_ & _ & spam & Hs & _). discriminate Hs.
  - unfold akismet_stage. rewrite Hen. simpl.
    split; [discriminate|]. intros (H & _). discriminate H.
Qed.

End Stages.

(** A request that is not spam-blocked leaves the spam stage with a
    verdict object or [null]. *)
Lemma not_blocked_verdict (W : collaborators) (input body : value)
    (req : request) :
  (forall c comment e, checkSpam W c comment = Throw e -> nullish e = false) ->
  getProp input "body" = Return body ->
  spam_blocked W input req = false ->
  exists t ak,
    akismet_stage W input req = (t, Return ak) /\ quiet t /\
    (ak = VNull \/ exists spam, ak = VObj [("spam", spam)]).
Proof.
  intros Hrej Hb Hnb.
  destruct (akismet_stage_cases W Hrej input req body Hb)
    as (t & Q & _ & [Hblock | (ak & Hak & Hshape)]).
  - unfold spam_blocked in Hnb. rewrite Hblock in Hnb. discriminate Hnb.
  - exists t, ak. auto.
Qed.

(** The toxicity stage hands over exactly the toxicity result. *)
Lemma perspective_stage_result (W : collaborators) (input body : value) :
  (forall c text o e, analyze W c text o = Throw e -> nullish e = false) ->
  getProp input "body" = Return body ->
  exists t,
    perspective_stage W input = (t, Return (toxicity_result W body)) /\
    quiet t /\
    moderation_calls t =
      (if perspectiveEnabled W
       then [Analyze (perspective_client W) body analyze_options] else []).
Proof.
  intros Hrej Hb. unfold toxicity_result.
  destruct (perspectiveEnabled W) eqn:Hen.
  - destruct (analyze W (perspective_client W) body analyze_options)
      as [r|e] eqn:Ha.
    + destruct (score_of r) as [score|e] eqn:Hs.
      * rewrite (perspective_stage_success W input body r score Hen Hb Ha Hs).
        exists [Analyze (perspective_client W) body analyze_options].
        repeat split.
      * destruct (perspective_stage_failure W Hrej input body Hen Hb)
          as [v Hv]; [right; eauto|].
        rewrite Hv.
        exists [Analyze (perspective_client W) body analyze_options;
                ConsoleError v]. repeat split.
    + destruct (perspective_stage_failure W Hrej input body Hen Hb)
        as [v Hv]; [left; eauto|].
      rewrite Hv.
      exists [Analyze (perspective_client W) body analyze_options;
              ConsoleError v]. repeat split.
  - unfold perspective_stage. rewrite Hen. exists []. repeat split.
Qed.

(** The spam stage, when it does not block, hands over exactly the spam
    verdict. *)
Lemma akismet_stage_result (W : collaborators) (input body : value)
    (req : request) :
  (forall c comment e, checkSpam W c comment = Throw e -> nullish e = false) ->
  getProp input "body" = Return body ->
  spam_blocked W input req = false ->
  exists t,
    akismet_stage W input req = (t, Return (spam_verdict W req body)) /\
    quiet t /\
    moderation_calls t =
      (if akismetEnabled W
       then [CheckSpam (akismet_client W req) (spam_comment req body)]
       else []).
Proof.
  intros Hrej Hb Hnb. unfold spam_verdict. unfold spam_blocked in Hnb.
  destruct (akismetEnabled W) eqn:Hen.
  - destruct (checkSpam W (akismet_client W req) (spam_comment req body))
      as [spam|e] eqn:Hc.
    + rewrite (akismet_stage_verdict W input req body spam Hen Hb Hc) in *.
      simpl in Hnb.
      exists [CheckSpam (akismet_client W req) (spam_comment req body)].
      split; [|split; reflexivity].
      destruct (is_null spam); simpl in *; [reflexivity|].
      destruct (truthy spam && negb (allowSpam W));
        [discriminate Hnb | reflexivity].
    + destruct (akismet_stage_failure W Hrej input req body e Hen Hb Hc)
        as [v Hv].
      rewrite Hv.
      exists [CheckSpam (akismet_client W req) (spam_comment req body);
              ConsoleError v]. repeat split.
  - unfold akismet_stage. rewrite Hen. exists []. repeat split.
Qed.

(** ** The dispatcher *)

Section Dispatch.

Variable W : collaborators.
Variable backend : backend_fn.
Variable attributes : value.

Lemma post_not_options req : method req = "POST" ->
  String.eqb (method req) "OPTIONS" = false.
Proof. now intros ->. Qed.

Lemma get_not_options req : method req = "GET" ->
  String.eqb (method req) "OPTIONS" = false.
Proof. now intros ->. Qed.

(** The outermost call, for a method that is not a preflight. *)
Lemma module_exports_run req res :
  String.eqb (method req) "OPTIONS" = false ->
  module_exports W backend attributes req res =
    handleErrors W
      (fun rq rs =>
         (cors_trace W rs ++ fst (route W backend attributes rq rs),
          snd (route W backend attributes rq rs)))
      req res.
Proof.
  intros Hm. unfold module_exports, handleErrors.
  now rewrite cors_run.
Qed.

Lemma deliver_run input perspective akismet req res :
  let ctx := moderation_context input perspective akismet in
  deliver W backend attributes input perspective akismet req res =
    match backend ctx req res with
    | Return result =>
        ([Backend ctx req res;
          Send res (VNum 201) (with_backend attributes [("result", result)])],
         Return VUndefined)
    | Throw e => ([Backend ctx req res], Throw e)
    end.
Proof.
  intros ctx. unfold deliver. fold ctx.
  destruct (backend ctx req res); reflexivity.
Qed.

(** A [POST] whose [body] is truthy goes past validation. *)
Lemma route_post_valid req res input body :
  method req = "POST" ->
  json W req = Return input ->
  getProp input "body" = Return body ->
  truthy body = true ->
  route W backend attributes req res =
    (perspective <- perspective_stage W input ;;
     akismet <- akismet_stage W input req ;;
     deliver W backend attributes input perspective akismet req res).
Proof.
  intros Hm Hj Hb Ht. unfold route.
  rewrite Hm, Hj, bind_lift_Return, Hb, bind_lift_Return, Ht. reflexivity.
Qed.

(** A [POST] whose [body] is falsy stops at validation. *)
Lemma route_post_invalid req res input body :
  method req = "POST" ->
  json W req = Return input ->
  getProp input "body" = Return body ->
  truthy body = false ->
  route W backend attributes req res =
    ([], Throw (createError 422 body_required)).
Proof.
  intros Hm Hj Hb Ht. unfold route.
  rewrite Hm, Hj, bind_lift_Return, Hb, bind_lift_Return, Ht. reflexivity.
Qed.

Lemma route_post_delivered req res input body t1 p t2 ak :
  method req = "POST" ->
  json W req = Return input ->
  getProp input "body" = Return body ->
  truthy body = true ->
  perspective_stage W input = (t1, Return p) ->
  akismet_stage W input req = (t2, Return ak) ->
  route W backend attributes req res =
    (t1 ++ t2 ++ fst (deliver W backend attributes input p ak req res),
     snd (deliver W backend attributes input p ak req res)).
Proof.
  intros Hm Hj Hb Ht H1 H2.
  rewrite (route_post_valid req res input body Hm Hj Hb Ht).
  rewrite (bind_Return _ _ _ _ H1). cbv beta.
  rewrite (bind_Return _ _ _ _ H2). reflexivity.
Qed.

Lemma route_post_blocked req res input body t1 p t2 e :
  method req = "POST" ->
  json W req = Return input ->
  getProp input "body" = Return body ->
  truthy body = true ->
  perspective_stage W input = (t1, Return p) ->
  akismet_stage W input req = (t2, Throw e) ->
  route W backend attributes req res = (t1 ++ t2, Throw e).
Proof.
  intros Hm Hj Hb Ht H1 H2.
  rewrite (route_post_valid req res input body Hm Hj Hb Ht).
  rewrite (bind_Return _ _ _ _ H1). cbv beta.
  rewrite (bind_Throw _ _ _ _ H2). reflexivity.
Qed.

(** The wrappers add no backend call and no moderation call. *)
Lemma module_exports_backend_calls req res :
  String.eqb (method req) "OPTIONS" = false ->
  backend_calls (fst (module_exports W backend attributes req res)) =
  backend_calls (fst (route W backend attributes req res)).
Proof.
  intros Hm. unfold module_exports.
  rewrite handleErrors_backend_calls, (cors_run W _ req res Hm). simpl fst.
  rewrite backend_calls_app, (quiet_backend_calls _ (quiet_cors_trace W res)).
  reflexivity.
Qed.

Lemma module_exports_moderation_calls req res :
  String.eqb (method req) "OPTIONS" = false ->
  moderation_calls (fst (module_exports W backend attributes req res)) =
  moderation_calls (fst (route W backend attributes req res)).
Proof.
  intros Hm. unfold module_exports.
  rewrite handleErrors_moderation_calls, (cors_run W _ req res Hm). simpl fst.
  rewrite moderation_calls_app, moderation_calls_cors_trace. reflexivity.
Qed.

(** A dispatch that returns passes through the boundary untouched. *)
Lemma module_exports_Return req res t a :
  String.eqb (method req) "OPTIONS" = false ->
  route W backend attributes req res = (t, Return a) ->
  module_exports W backend attributes req res =
    (cors_trace W res ++ t, Return a).
Proof.
  intros Hm Hr. unfold module_exports. apply handleErrors_Return.
  rewrite (cors_run W _ req res Hm), Hr. reflexivity.
Qed.

(** What the boundary renders for an error made by [createError]. *)
Lemma createError_rendered req res t code message :
  String.eqb (method req) "OPTIONS" = false ->
  route W backend attributes req res = (t, Throw (createError code message)) ->
  truthy (VNum code) = true ->
  sendable W (VNum code) = true ->
  module_exports W backend attributes req res =
    (cors_trace W res ++ t ++ error_log W (createError code message) ++
       [Send res (VNum code)
          (VObj [("status", VNum code); ("message", VStr message)])],
     Return VUndefined).
Proof.
  intros Hm Hr Hc Hok.
  assert (Hrun : cors W (route W backend attributes) req res =
                 (cors_trace W res ++ t, Throw (createError code message))).
  { rewrite (cors_run W _ req res Hm), Hr. reflexivity. }
  unfold module_exports.
  rewrite (handleErrors_Throw W _ req res _ _ (VNum code) (VStr message)
             Hrun eq_refl eq_refl);
    unfold or_else; rewrite Hc; [|exact Hok].
  now rewrite <- app_assoc.
Qed.

(** A valid [POST] that both stages let through: one backend call, and a
    201 answer when the backend returns. *)
Lemma post_delivered req res input body t1 p t2 ak :
  method req = "POST" ->
  json W req = Return input ->
  getProp input "body" = Return body ->
  truthy body = true ->
  perspective_stage W input = (t1, Return p) -> quiet t1 ->
  akismet_stage W input req = (t2, Return ak) -> quiet t2 ->
  let run := module_exports W backend attributes req res in
  let ctx := moderation_context input p ak in
  backend_calls (fst run) = [(ctx, req, res)] /\
  moderation_calls (fst run) = moderation_calls t1 ++ moderation_calls t2 /\
  forall result,
    backend ctx req res = Return result ->
    responses (fst run) =
      [(res, VNum 201, with_backend attributes [("result", result)])] /\
    snd run = Return VUndefined.
Proof.
  intros Hm Hj Hb Ht H1 Q1 H2 Q2 run ctx.
  pose proof (post_not_options req Hm) as Hno.
  pose proof (route_post_delivered req res input body t1 p t2 ak
                Hm Hj Hb Ht H1 H2) as Hr.
  rewrite deliver_run in Hr. fold ctx in Hr. subst run.
  split; [|split].
  - rewrite (module_exports_backend_calls req res Hno), Hr. simpl fst.
    rewrite !backend_calls_app, (quiet_backend_calls _ Q1),
      (quiet_backend_calls _ Q2).
    destruct (backend ctx req res); reflexivity.
  - rewrite (module_exports_moderation_calls req res Hno), Hr. simpl fst.
    rewrite !moderation_calls_app.
    destruct (backend ctx req res); simpl; now rewrite app_nil_r.
  - intros result Hres. rewrite Hres in Hr. simpl in Hr.
    rewrite (module_exports_Return req res _ _ Hno Hr). simpl fst. simpl snd.
    rewrite !responses_app, (quiet_responses _ (quiet_cors_trace W res)),
      (quiet_responses _ Q1), (quiet_responses _ Q2).
    split; reflexivity.
Qed.

(** A valid [POST] that the spam stage blocks: the 400 answer and no
    backend call. *)
Lemma post_blocked req res input body t1 p t2 :
  method req = "POST" ->
  json W req = Return input ->
  getProp input "body" = Return body ->
  truthy body = true ->
  perspective_stage W input = (t1, Return p) -> quiet t1 ->
  akismet_stage W input req = (t2, Throw (createError 400 "Spam detected."))
    -> quiet t2 ->
  let run := module_exports W backend attributes req res in
  responses (fst run) =
    [(res, VNum 400,
      VObj [("status", VNum 400); ("message", VStr "Spam detected.")])] /\
  backend_calls (fst run) = [] /\
  moderation_calls (fst run) = moderation_calls t1 ++ moderation_calls t2.
Proof.
  intros Hm Hj Hb Ht H1 Q1 H2 Q2 run.
  pose proof (post_not_options req Hm) as Hno.
  pose proof (route_post_blocked req res input body t1 p t2 _
                Hm Hj Hb Ht H1 H2) as Hr.
  subst run. split; [|split].
  - rewrite (createError_rendered req res _ _ _ Hno Hr eq_refl eq_refl).
    simpl fst.
    rewrite !responses_app, (quiet_responses _ (quiet_cors_trace W res)),
      (quiet_responses _ Q1), (quiet_responses _ Q2),
      (quiet_responses _ (quiet_error_log W _)).
    reflexivity.
  - rewrite (module_exports_backend_calls req res Hno), Hr. simpl fst.
    rewrite backend_calls_app, (quiet_backend_calls _ Q1),
      (quiet_backend_calls _ Q2). reflexivity.
  - rewrite (module_exports_moderation_calls req res Hno), Hr. simpl fst.
    apply moderation_calls_app.
Qed.

End Dispatch.

(** ** Properties of the handler *)

(** C1.  A POST whose parsed body has a truthy [body], with both checks
    switched off, calls the backend exactly once; when the backend returns,
    the one response is a 201 whose [result] is the returned value. *)
Theorem post_unmoderated_delivers
    (W : collaborators) (backend : backend_fn) (attributes : value)
    (req : request) (res : response) (input body : value) :
  method req = "POST" ->
  json W req = Return input ->
  getProp input "body" = Return body ->
  truthy body = true ->
  perspectiveEnabled W = false ->
  akismetEnabled W = false ->
  let run := module_exports W backend attributes req res in
  let ctx := moderation_context input VNull VNull in
  backend_calls (fst run) = [(ctx, req, res)] /\
  moderation_calls (fst run) = [] /\
  forall result,
    backend ctx req res = Return result ->
    let data := with_backend attributes [("result", result)] in
    responses (fst run) = [(res, VNum 201, data)] /\
    getProp data "result" = Return result /\
    snd run = Return VUndefined.
Proof.
  intros Hm Hj Hb Ht Hp Ha run ctx.
  assert (H1 : perspective_stage W input = ([], Return VNull)).
  { unfold perspective_stage. now rewrite Hp. }
  assert (H2 : akismet_stage W input req = ([], Return VNull)).
  { unfold akismet_stage. now rewrite Ha. }
  destruct (post_delivered W backend attributes req res input body
              [] VNull [] VNull Hm Hj Hb Ht H1 quiet_nil H2 quiet_nil)
    as (Hcalls & Hmod & Hresp).
  split; [exact Hcalls|]. split; [exact Hmod|].
  intros result Hres data.
  destruct (Hresp result Hres) as [Hsent Hret].
  split; [exact Hsent|]. split; [|exact Hret].
  unfold data, with_backend. now destruct (truthy attributes).
Qed.

Lemma post_unmoderated_delivers_witness :
  let W := Sample.world Sample.bare_env (Return Sample.feedback)
             (Throw VNull) (Throw VNull) in
  let run := module_exports W Sample.ok_backend Sample.email Sample.post 7 in
  let ctx := moderation_context Sample.feedback VNull VNull in
  backend_calls (fst run) = [(ctx, Sample.post, 7)] /\
  moderation_calls (fst run) = [] /\
  forall result,
    Sample.ok_backend ctx Sample.post 7 = Return result ->
    let data := with_backend Sample.email [("result", result)] in
    responses (fst run) = [(7, VNum 201, data)] /\
    getProp data "result" = Return result /\
    snd run = Return VUndefined.
Proof.
  apply (post_unmoderated_delivers
           (Sample.world Sample.bare_env (Return Sample.feedback)
              (Throw VNull) (Throw VNull))
           Sample.ok_backend Sample.email Sample.post 7
           Sample.feedback (VStr "nice app!")); reflexivity.
Defined.

(** The exchange of the README: feedback in, the backend's answer out. *)
Example nice_app :
  let W := Sample.world Sample.bare_env (Return Sample.feedback)
             (Throw VNull) (Throw VNull) in
  module_exports W Sample.ok_backend VUndefined Sample.post 7 =
    (cors_trace W 7 ++
     [Backend (moderation_context Sample.feedback VNull VNull) Sample.post 7;
      Send 7 (VNum 201) (VObj [("result", VObj [("status", VStr "ok")])])],
     Return VUndefined).
Proof. reflexivity. Qed.

(** Any other method is refused with a 405. *)
Example put_not_allowed :
  let W := Sample.world Sample.bare_env (Return Sample.feedback)
             (Throw VNull) (Throw VNull) in
  responses
    (fst (module_exports W Sample.ok_backend VUndefined
            (mkRequest "PUT" [] "") 7)) =
    [(7, VNum 405,
      VObj [("status", VNum 405);
            ("message", VStr "Method PUT not allowed.")])].
Proof. reflexivity. Qed.

(** C2.  When the spam check is on, answers with a verdict that indicates
    spam, and the allow-spam override is off, the one response is a 400
    with message [Spam detected.] and the backend is not called. *)
Theorem spam_verdict_blocks
    (W : collaborators) (backend : backend_fn) (attributes : value)
    (req : request) (res : response) (input body spam : value) :
  (forall c text o e, analyze W c text o = Throw e -> nullish e = false) ->
  method req = "POST" ->
  json W req = Return input ->
  getProp input "body" = Return body ->
  truthy body = true ->
  akismetEnabled W = true ->
  checkSpam W (akismet_client W req) (spam_comment req body) = Return spam ->
  truthy spam = true ->
  allowSpam W = false ->
  let run := module_exports W backend attributes req res in
  responses (fst run) =
    [(res, VNum 400,
      VObj [("status", VNum 400); ("message", VStr "Spam detected.")])] /\
  backend_calls (fst run) = [].
Proof.
  intros Hrej Hm Hj Hb Ht Hen Hc Hspam Hallow run.
  destruct (perspective_stage_total W Hrej input body Hb)
    as (t1 & p & H1 & Q1 & _ & _).
  pose proof (akismet_stage_verdict W input req body spam Hen Hb Hc) as H2.
  rewrite Hspam, Hallow in H2.
  rewrite (truthy_not_null spam Hspam) in H2. simpl in H2.
  destruct (post_blocked W backend attributes req res input body t1 p _
              Hm Hj Hb Ht H1 Q1 H2 eq_refl) as (Hresp & Hcalls & _).
  split; assumption.
Qed.

Lemma spam_verdict_blocks_witness :
  let W := Sample.world Sample.full_env (Return Sample.feedback)
             (Return (Sample.scored (VNum 0.25))) (Return (VBool true)) in
  let run := module_exports W Sample.ok_backend Sample.email Sample.post 7 in
  responses (fst run) =
    [(7, VNum 400,
      VObj [("status", VNum 400); ("message", VStr "Spam detected.")])] /\
  backend_calls (fst run) = [].
Proof.
  apply (spam_verdict_blocks
           (Sample.world Sample.full_env (Return Sample.feedback)
              (Return (Sample.scored (VNum 0.25))) (Return (VBool true)))
           Sample.ok_backend Sample.email Sample.post 7
           Sample.feedback (VStr "nice app!") (VBool true));
    try reflexivity.
  intros c text o e H. discriminate H.
Defined.

(** X18.  A POST whose parsed body is not [null] and has no [body], an
    empty one or any other falsy one is answered with a 422 carrying the
    message ["body" is required in request payload]; no service and no
    backend is called. *)
Theorem post_without_body_rejected
    (W : collaborators) (backend : backend_fn) (attributes : value)
    (req : request) (res : response) (input body : value) :
  method req = "POST" ->
  json W req = Return input ->
  getProp input "body" = Return body ->
  truthy body = false ->
  let run := module_exports W backend attributes req res in
  responses (fst run) =
    [(res, VNum 422,
      VObj [("status", VNum 422); ("message", VStr body_required)])] /\
  backend_calls (fst run) = [] /\
  moderation_calls (fst run) = [].
Proof.
  intros Hm Hj Hb Ht run.
  pose proof (post_not_options req Hm) as Hno.
  pose proof (route_post_invalid W backend attributes req res input body
                Hm Hj Hb Ht) as Hr.
  subst run. split; [|split].
  - rewrite (createError_rendered W backend attributes req res _ _ _
               Hno Hr eq_refl eq_refl). simpl fst.
    rewrite !responses_app, (quiet_responses _ (quiet_cors_trace W res)),
      (quiet_responses _ (quiet_error_log W _)).
    reflexivity.
  - rewrite (module_exports_backend_calls W backend attributes req res Hno).
    now rewrite Hr.
  - rewrite (module_exports_moderation_calls W backend attributes req res Hno).
    now rewrite Hr.
Qed.

Lemma post_without_body_rejected_witness :
  let W := Sample.world Sample.full_env (Return (VObj []))
             (Return (Sample.scored (VNum 0.25))) (Return (VBool false)) in
  let run := module_exports W Sample.ok_backend Sample.email Sample.post 7 in
  responses (fst run) =
    [(7, VNum 422,
      VObj [("status", VNum 422); ("message", VStr body_required)])] /\
  backend_calls (fst run) = [] /\
  moderation_calls (fst run) = [].
Proof.
  apply (post_without_body_rejected
           (Sample.world Sample.full_env (Return (VObj []))
              (Return (Sample.scored (VNum 0.25))) (Return (VBool false)))
           Sample.ok_backend Sample.email Sample.post 7
           (VObj []) VUndefined); reflexivity.
Defined.

(** The same answer for an empty string, for zero and for [false]. *)
Example falsy_bodies_rejected :
  forall body, In body [VStr ""; VNum 0; VBool false; VNull; VNum nan] ->
  let W := Sample.world Sample.bare_env (Return (VObj [("body", body)]))
             (Throw VNull) (Throw VNull) in
  responses
    (fst (module_exports W Sample.ok_backend VUndefined Sample.post 7)) =
    [(7, VNum 422,
      VObj [("status", VNum 422); ("message", VStr body_required)])].
Proof.
  intros body Hin. simpl in Hin.
  repeat (destruct Hin as [<-|Hin]; [reflexivity|]). contradiction.
Qed.

(** C3, at the failing input.  A POST whose parsed JSON is [null] has no
    [body] either, but the read on line 62 throws before the 422 is
    raised: the answer is a 500, not the 422 that a payload such as the
    number 5, which has no [body] either, receives. *)
Theorem null_payload_misses_validation :
  let W := Sample.world Sample.bare_env (Return VNull)
             (Throw VNull) (Throw VNull) in
  let W5 := Sample.world Sample.bare_env (Return (VNum 5))
              (Throw VNull) (Throw VNull) in
  let rejected :=
    [(7, VNum 422,
      VObj [("status", VNum 422); ("message", VStr body_required)])] in
  let run := module_exports W Sample.ok_backend VUndefined Sample.post 7 in
  (exists message,
     responses (fst run) =
       [(7, VNum 500,
         VObj [("status", VNum 500); ("message", VStr message)])]) /\
  responses (fst run) <> rejected /\
  responses
    (fst (module_exports W5 Sample.ok_backend VUndefined Sample.post 7)) =
    rejected.
Proof.
  intros W W5 rejected run. split; [|split].
  - eexists. reflexivity.
  - intros H.
    apply (f_equal (fun l => match l with
                             | [(_, VNum n, _)] => PrimFloat.eqb n 422
                             | _ => true
                             end)) in H.
    vm_compute in H. discriminate H.
  - reflexivity.
Qed.

(** C4, as the code has it.  A POST that passes validation and is not
    spam-blocked, with service clients that do not reject with [undefined]
    or [null], calls the backend with the object
    [{ input, perspective, akismet }] and the request and response handles:
    [input] is the parsed body, [perspective] is the toxicity result
    [{ toxicity: score }] or [null], [akismet] is the spam verdict
    [{ spam: verdict }] or [null]. *)
Theorem backend_receives_context
    (W : collaborators) (backend : backend_fn) (attributes : value)
    (req : request) (res : response) (input body : value) :
  (forall c text o e, analyze W c text o = Throw e -> nullish e = false) ->
  (forall c comment e, checkSpam W c comment = Throw e -> nullish e = false) ->
  method req = "POST" ->
  json W req = Return input ->
  getProp input "body" = Return body ->
  truthy body = true ->
  spam_blocked W input req = false ->
  let run := module_exports W backend attributes req res in
  backend_calls (fst run) =
    [(VObj [("input", input);
            ("perspective", toxicity_result W body);
            ("akismet", spam_verdict W req body)], req, res)] /\
  moderation_calls (fst run) =
    (if perspectiveEnabled W
     then [Analyze (perspective_client W) body analyze_options] else []) ++
    (if akismetEnabled W
     then [CheckSpam (akismet_client W req) (spam_comment req body)]
     else []).
Proof.
  intros Hra Hrc Hm Hj Hb Ht Hnb run.
  destruct (perspective_stage_result W input body Hra Hb)
    as (t1 & H1 & Q1 & M1).
  destruct (akismet_stage_result W input body req Hrc Hb Hnb)
    as (t2 & H2 & Q2 & M2).
  destruct (post_delivered W backend attributes req res input body _ _ _ _
              Hm Hj Hb Ht H1 Q1 H2 Q2) as (Hcalls & Hmod & _).
  split; [exact Hcalls|]. subst run. now rewrite Hmod, M1, M2.
Qed.

Lemma backend_receives_context_witness :
  let W := Sample.world Sample.full_env (Return Sample.feedback)
             (Return (Sample.scored (VNum 0.25))) (Return (VBool false)) in
  let run := module_exports W Sample.ok_backend Sample.email Sample.post 7 in
  backend_calls (fst run) =
    [(VObj [("input", Sample.feedback);
            ("perspective", VObj [("toxicity", VNum 0.25)]);
            ("akismet", VObj [("spam", VBool false)])], Sample.post, 7)] /\
  moderation_calls (fst run) =
    [Analyze (perspective_client W) (VStr "nice app!") analyze_options;
     CheckSpam (akismet_client W Sample.post)
       (spam_comment Sample.post (VStr "nice app!"))].
Proof.
  intros W run.
  apply (backend_receives_context W Sample.ok_backend Sample.email
           Sample.post 7 Sample.feedback (VStr "nice app!"));
    try reflexivity.
  - intros c text o e H. discriminate H.
  - intros c comment e H. discriminate H.
Defined.

(** C4 as worded fails: with the toxicity check on and successful, the
    object handed to the backend is not of the shape
    [{ input, toxicity, akismet }]. *)
Lemma context_has_no_toxicity_key :
  let W := Sample.world Sample.full_env (Return Sample.feedback)
             (Return (Sample.scored (VNum 0.25))) (Return (VBool false)) in
  let run := module_exports W Sample.ok_backend Sample.email Sample.post 7 in
  (~ exists input toxicity akismet,
       backend_calls (fst run) =
         [(VObj [("input", input); ("toxicity", toxicity);
                 ("akismet", akismet)], Sample.post, 7)]) /\
  backend_calls (fst run) =
    [(VObj [("input", Sample.feedback);
            ("perspective", VObj [("toxicity", VNum 0.25)]);
            ("akismet", VObj [("spam", VBool false)])], Sample.post, 7)].
Proof.
  intros W run. split; [|reflexivity].
  intros (input & toxicity & akismet & H).
  vm_compute in H. discriminate H.
Qed.

(** C5, as the code has it.  When the toxicity check is on and its attempt
    fails, in that the client throws or the score cannot be read because
    the response or one of [attributeScores], [TOXICITY], [summaryScore] is
    [undefined] or [null], the request still goes on with
    [perspective = null]: unless the spam stage blocks, the backend is
    called, and a 201 follows when it returns.  Both service clients are
    taken not to reject with [undefined] or [null]. *)
Theorem toxicity_failure_absorbed
    (W : collaborators) (backend : backend_fn) (attributes : value)
    (req : request) (res : response) (input body : value) :
  (forall c text o e, analyze W c text o = Throw e -> nullish e = false) ->
  (forall c comment e, checkSpam W c comment = Throw e -> nullish e = false) ->
  method req = "POST" ->
  json W req = Return input ->
  getProp input "body" = Return body ->
  truthy body = true ->
  perspectiveEnabled W = true ->
  ((exists e,
      analyze W (perspective_client W) body analyze_options = Throw e) \/
   (exists r e,
      analyze W (perspective_client W) body analyze_options = Return r /\
      score_of r = Throw e)) ->
  spam_blocked W input req = false ->
  let run := module_exports W backend attributes req res in
  exists ctx,
    backend_calls (fst run) = [(ctx, req, res)] /\
    getProp ctx "perspective" = Return VNull /\
    forall result,
      backend ctx req res = Return result ->
      responses (fst run) =
        [(res, VNum 201, with_backend attributes [("result", result)])].
Proof.
  intros Hra Hrc Hm Hj Hb Ht Hen Hfail Hnb run.
  destruct (perspective_stage_failure W Hra input body Hen Hb Hfail)
    as [v H1].
  destruct (not_blocked_verdict W input body req Hrc Hb Hnb)
    as (t2 & ak & H2 & Q2 & _).
  destruct (post_delivered W backend attributes req res input body _ _ _ _
              Hm Hj Hb Ht H1 eq_refl H2 Q2) as (Hcalls & _ & Hresp).
  exists (moderation_context input VNull ak).
  split; [exact Hcalls|]. split; [reflexivity|].
  intros result Hres. apply (Hresp result Hres).
Qed.

Lemma toxicity_failure_absorbed_witness :
  let W := Sample.world Sample.full_env (Return Sample.feedback)
             (Throw (TypeError "fetch failed")) (Return (VBool false)) in
  let run := module_exports W Sample.ok_backend Sample.email Sample.post 7 in
  exists ctx,
    backend_calls (fst run) = [(ctx, Sample.post, 7)] /\
    getProp ctx "perspective" = Return VNull /\
    forall result,
      Sample.ok_backend ctx Sample.post 7 = Return result ->
      responses (fst run) =
        [(7, VNum 201, with_backend Sample.email [("result", result)])].
Proof.
  apply (toxicity_failure_absorbed
           (Sample.world Sample.full_env (Return Sample.feedback)
              (Throw (TypeError "fetch failed")) (Return (VBool false)))
           Sample.ok_backend Sample.email Sample.post 7
           Sample.feedback (VStr "nice app!"));
    try reflexivity.
  - intros c text o e H. injection H as <-. reflexivity.
  - intros c comment e H. discriminate H.
  - left. exists (TypeError "fetch failed"). reflexivity.
Defined.

(** C5 as worded fails: a response that lacks only the final [value] is
    malformed, yet the handler takes it for a success and the backend
    receives [{ toxicity: undefined }], not [null]. *)
Lemma missing_score_is_not_null :
  let W := Sample.world Sample.full_env (Return Sample.feedback)
             (Return (VObj [("attributeScores",
                VObj [("TOXICITY", VObj [("summaryScore", VObj [])])])]))
             (Return (VBool false)) in
  let run := module_exports W Sample.ok_backend Sample.email Sample.post 7 in
  score_of (VObj [("attributeScores",
              VObj [("TOXICITY", VObj [("summaryScore", VObj [])])])])
    = Return VUndefined /\
  (~ exists ctx,
       backend_calls (fst run) = [(ctx, Sample.post, 7)] /\
       getProp ctx "perspective" = Return VNull) /\
  backend_calls (fst run) =
    [(moderation_context Sample.feedback
        (VObj [("toxicity", VUndefined)]) (VObj [("spam", VBool false)]),
      Sample.post, 7)].
Proof.
  intros W run. split; [reflexivity|]. split; [|reflexivity].
  intros (ctx & Hcalls & Hp).
  vm_compute in Hcalls. injection Hcalls as <-.
  vm_compute in Hp. discriminate Hp.
Qed.

(** C6.  When the spam check is on, answers that the feedback is spam, and
    the allow-spam override is on, the backend is called and its context
    carries [akismet = { spam: true }]. *)
Theorem allowed_spam_reaches_backend
    (W : collaborators) (backend : backend_fn) (attributes : value)
    (req : request) (res : response) (input body : value) :
  (forall c text o e, analyze W c text o = Throw e -> nullish e = false) ->
  method req = "POST" ->
  json W req = Return input ->
  getProp input "body" = Return body ->
  truthy body = true ->
  akismetEnabled W = true ->
  checkSpam W (akismet_client W req) (spam_comment req body)
    = Return (VBool true) ->
  allowSpam W = true ->
  let run := module_exports W backend attributes req res in
  exists ctx,
    backend_calls (fst run) = [(ctx, req, res)] /\
    getProp ctx "akismet" = Return (VObj [("spam", VBool true)]) /\
    getProp ctx "input" = Return input.
Proof.
  intros Hrej Hm Hj Hb Ht Hen Hc Hallow run.
  destruct (perspective_stage_total W Hrej input body Hb)
    as (t1 & p & H1 & Q1 & _ & _).
  pose proof (akismet_stage_verdict W input req body _ Hen Hb Hc) as H2.
  rewrite Hallow in H2. simpl in H2.
  destruct (post_delivered W backend attributes req res input body t1 p _ _
              Hm Hj Hb Ht H1 Q1 H2 eq_refl) as (Hcalls & _ & _).
  exists (moderation_context input p (VObj [("spam", VBool true)])).
  repeat split. exact Hcalls.
Qed.

Lemma allowed_spam_reaches_backend_witness :
  let W := Sample.world Sample.lenient_env (Return Sample.feedback)
             (Return (Sample.scored (VNum 0.25))) (Return (VBool true)) in
  let run := module_exports W Sample.ok_backend Sample.email Sample.post 7 in
  exists ctx,
    backend_calls (fst run) = [(ctx, Sample.post, 7)] /\
    getProp ctx "akismet" = Return (VObj [("spam", VBool true)]) /\
    getProp ctx "input" = Return Sample.feedback.
Proof.
  apply (allowed_spam_reaches_backend
           (Sample.world Sample.lenient_env (Return Sample.feedback)
              (Return (Sample.scored (VNum 0.25))) (Return (VBool true)))
           Sample.ok_backend Sample.email Sample.post 7
           Sample.feedback (VStr "nice app!"));
    try reflexivity.
  intros c text o e H. discriminate H.
Defined.

(** C7, as the code has it.  A thrown value whose properties can be read
    and that escapes the wrapped function is rendered once, by the
    boundary: when its [statusCode] is a number that is an HTTP status (an
    integer from 100 to 999) the response has that status, and when it has
    no [statusCode] or a falsy one ([undefined], [null], 0, [NaN]) the
    status is 500; the body is [{ status, message }] with the value's own
    [message]. *)
Theorem handleErrors_renders
    (W : collaborators) (fn : handler) (req : request) (res : response)
    (t : list event) (e statusCode message : value) :
  fn req res = (t, Throw e) ->
  getProp e "statusCode" = Return statusCode ->
  getProp e "message" = Return message ->
  is_http_status statusCode = true \/ truthy statusCode = false ->
  let run := handleErrors W fn req res in
  let status := if is_http_status statusCode then statusCode else VNum 500 in
  responses (fst run) =
    responses t ++
    [(res, status, VObj [("status", status); ("message", message)])] /\
  snd run = Return VUndefined /\
  backend_calls (fst run) = backend_calls t.
Proof.
  intros H Hs Hmsg Hcode run status. subst run.
  assert (Hst : or_else statusCode (VNum 500) = status).
  { unfold or_else, status. destruct Hcode as [Hc|Hc].
    - now rewrite Hc, (http_status_truthy _ Hc).
    - rewrite Hc. destruct (is_http_status statusCode) eqn:E; [|reflexivity].
      rewrite (http_status_truthy _ E) in Hc. discriminate Hc. }
  assert (Hok : sendable W (or_else statusCode (VNum 500)) = true).
  { rewrite Hst. unfold status.
    destruct (is_http_status statusCode) eqn:E;
      [apply (http_status_sendable W _ E) | reflexivity]. }
  rewrite (handleErrors_Throw W fn req res t e statusCode message
             H Hs Hmsg Hok).
  rewrite Hst. simpl fst. simpl snd.
  rewrite !responses_app, !backend_calls_app,
    (quiet_responses _ (quiet_error_log W e)),
    (quiet_backend_calls _ (quiet_error_log W e)).
  simpl. rewrite app_nil_r. repeat split.
Qed.

Lemma handleErrors_renders_witness :
  let W := Sample.world Sample.full_env (Return Sample.feedback)
             (Return (Sample.scored (VNum 0.25))) (Return (VBool false)) in
  let e := createError 503 "mail server down" in
  let run :=
    module_exports W (Sample.failing_backend e) Sample.email Sample.post 7 in
  responses (fst run) =
    [(7, VNum 503,
      VObj [("status", VNum 503); ("message", VStr "mail server down")])] /\
  snd run = Return VUndefined.
Proof.
  intros W e run.
  destruct (handleErrors_renders W
              (cors W (route W (Sample.failing_backend e) Sample.email))
              Sample.post 7
              (fst (cors W (route W (Sample.failing_backend e) Sample.email)
                      Sample.post 7))
              e (VNum 503) (VStr "mail server down")
              eq_refl eq_refl eq_refl (or_introl eq_refl))
    as (Hresp & Hret & _).
  split; [exact Hresp | exact Hret].
Defined.

(** C7 as worded fails at a status code of 0: it is numeric, yet the
    response is a 500. *)
Lemma zero_status_code_is_replaced :
  let W := Sample.world Sample.bare_env (Return Sample.feedback)
             (Throw VNull) (Throw VNull) in
  let e := createError 0 "no status" in
  let run :=
    module_exports W (Sample.failing_backend e) VUndefined Sample.post 7 in
  getProp e "statusCode" = Return (VNum 0) /\
  responses (fst run) <>
    [(7, specified_status (VNum 0),
      VObj [("status", specified_status (VNum 0));
            ("message", VStr "no status")])] /\
  responses (fst run) =
    [(7, VNum 500,
      VObj [("status", VNum 500); ("message", VStr "no status")])].
Proof.
  intros W e run. split; [reflexivity|]. split; [|reflexivity].
  intros H.
  apply (f_equal (fun l => match l with
                           | [(_, status, _)] => truthy status
                           | _ => false
                           end)) in H.
  vm_compute in H. discriminate H.
Qed.

(** A status code no response can carry is refused by [send] inside the
    [catch]: nothing is written and the [RangeError] escapes. *)
Example invalid_status_code_escapes :
  let W := Sample.world Sample.bare_env (Return Sample.feedback)
             (Throw VNull) (Throw VNull) in
  let e := createError 1000 "out of range" in
  let run :=
    module_exports W (Sample.failing_backend e) VUndefined Sample.post 7 in
  responses (fst run) = [] /\ snd run = Throw invalid_status.
Proof. split; reflexivity. Qed.

(** C8.  A GET is answered with a 200 carrying the info object
    [{ message, core: { version, perspectiveEnabled, akismetEnabled } }],
    plus [backend] when attributes were given; no moderation service and no
    backend is called. *)
Theorem get_answers_info
    (W : collaborators) (backend : backend_fn) (attributes : value)
    (req : request) (res : response) :
  method req = "GET" ->
  let run := module_exports W backend attributes req res in
  let info :=
    [("message", VStr welcome);
     ("core", VObj [("version", pkg_version W);
                    ("perspectiveEnabled", VBool (perspectiveEnabled W));
                    ("akismetEnabled", VBool (akismetEnabled W))])] in
  run = (cors_trace W res ++
           [Send res (VNum 200)
              (VObj (if truthy attributes
                     then info ++ [("backend", attributes)] else info))],
         Return VUndefined) /\
  responses (fst run) =
    [(res, VNum 200,
      VObj (if truthy attributes
            then info ++ [("backend", attributes)] else info))] /\
  moderation_calls (fst run) = [] /\
  backend_calls (fst run) = [].
Proof.
  intros Hm run info.
  pose proof (get_not_options req Hm) as Hno.
  assert (Hr : route W backend attributes req res =
               ([Send res (VNum 200)
                   (VObj (if truthy attributes
                          then info ++ [("backend", attributes)] else info))],
                Return VUndefined)).
  { unfold route. rewrite Hm. simpl. unfold with_backend.
    destruct (truthy attributes); reflexivity. }
  assert (Hrun : run = (cors_trace W res ++
           [Send res (VNum 200)
              (VObj (if truthy attributes
                     then info ++ [("backend", attributes)] else info))],
         Return VUndefined)).
  { subst run. apply (module_exports_Return W backend attributes req res _ _
                        Hno Hr). }
  split; [exact Hrun|]. rewrite Hrun. simpl fst.
  rewrite responses_app, moderation_calls_app, backend_calls_app,
    (quiet_responses _ (quiet_cors_trace W res)),
    (quiet_backend_calls _ (quiet_cors_trace W res)),
    moderation_calls_cors_trace.
  repeat split.
Qed.

Lemma get_answers_info_witness :
  let W := Sample.world Sample.full_env (Return Sample.feedback)
             (Return (Sample.scored (VNum 0.25))) (Return (VBool true)) in
  let run := module_exports W Sample.ok_backend Sample.email Sample.get 7 in
  responses (fst run) =
    [(7, VNum 200,
      VObj [("message", VStr welcome);
            ("core", VObj [("version", VStr "1.0.0");
                           ("perspectiveEnabled", VBool true);
                           ("akismetEnabled", VBool true)]);
            ("backend", Sample.email)])] /\
  moderation_calls (fst run) = [] /\
  backend_calls (fst run) = [].
Proof.
  intros W run.
  destruct (get_answers_info W Sample.ok_backend Sample.email Sample.get 7
              eq_refl) as (_ & Hresp & Hmod & Hcalls).
  split; [exact Hresp|]. split; [exact Hmod | exact Hcalls].
Defined.

(** C9, as the code has it.  When the toxicity check is on and succeeds,
    the backend's context carries [perspective = { toxicity: v }] where [v]
    is the value read from the service's response at
    [attributeScores.TOXICITY.summaryScore.value], stored as it is, with no
    check of its type or range. *)
Theorem toxicity_score_passed_through
    (W : collaborators) (backend : backend_fn) (attributes : value)
    (req : request) (res : response) (input body r score : value) :
  (forall c comment e, checkSpam W c comment = Throw e -> nullish e = false) ->
  method req = "POST" ->
  json W req = Return input ->
  getProp input "body" = Return body ->
  truthy body = true ->
  perspectiveEnabled W = true ->
  analyze W (perspective_client W) body analyze_options = Return r ->
  score_of r = Return score ->
  spam_blocked W input req = false ->
  let run := module_exports W backend attributes req res in
  exists ctx,
    backend_calls (fst run) = [(ctx, req, res)] /\
    getProp ctx "perspective" = Return (VObj [("toxicity", score)]).
Proof.
  intros Hrc Hm Hj Hb Ht Hen Ha Hs Hnb run.
  pose proof (perspective_stage_success W input body r score Hen Hb Ha Hs)
    as H1.
  destruct (not_blocked_verdict W input body req Hrc Hb Hnb)
    as (t2 & ak & H2 & Q2 & _).
  destruct (post_delivered W backend attributes req res input body _ _ _ _
              Hm Hj Hb Ht H1 eq_refl H2 Q2) as (Hcalls & _ & _).
  exists (moderation_context input (VObj [("toxicity", score)]) ak).
  split; [exact Hcalls | reflexivity].
Qed.

Lemma toxicity_score_passed_through_witness :
  let W := Sample.world Sample.full_env (Return Sample.feedback)
             (Return (Sample.scored (VNum 0.25))) (Return (VBool false)) in
  let run := module_exports W Sample.ok_backend Sample.email Sample.post 7 in
  exists ctx,
    backend_calls (fst run) = [(ctx, Sample.post, 7)] /\
    getProp ctx "perspective" = Return (VObj [("toxicity", VNum 0.25)]).
Proof.
  apply (toxicity_score_passed_through
           (Sample.world Sample.full_env (Return Sample.feedback)
              (Return (Sample.scored (VNum 0.25))) (Return (VBool false)))
           Sample.ok_backend Sample.email Sample.post 7
           Sample.feedback (VStr "nice app!")
           (Sample.scored (VNum 0.25)) (VNum 0.25));
    try reflexivity.
  intros c comment e H. discriminate H.
Defined.

(** C9 as worded fails: a service response whose score is 5 is a success
    for the handler, and the backend receives [{ toxicity: 5 }]. *)
Lemma toxicity_score_out_of_range :
  let W := Sample.world Sample.full_env (Return Sample.feedback)
             (Return (Sample.scored (VNum 5))) (Return (VBool false)) in
  let run := module_exports W Sample.ok_backend Sample.email Sample.post 7 in
  ~ exists ctx score,
      backend_calls (fst run) = [(ctx, Sample.post, 7)] /\
      getProp ctx "perspective" = Return (VObj [("toxicity", score)]) /\
      in_unit_interval score = true.
Proof.
  intros W run (ctx & score & Hcalls & Hp & Hin).
  vm_compute in Hcalls. injection Hcalls as <-.
  vm_compute in Hp. injection Hp as <-.
  vm_compute in Hin. discriminate Hin.
Qed.

(** A response without a [value] under [summaryScore] counts as a success
    and yields [{ toxicity: undefined }]. *)
Example score_without_value :
  let W := Sample.world Sample.full_env (Return Sample.feedback)
             (Return (VObj [("attributeScores",
                VObj [("TOXICITY", VObj [("summaryScore", VObj [])])])]))
             (Return (VBool false)) in
  snd (perspective_stage W Sample.feedback) =
    Return (VObj [("toxicity", VUndefined)]).
Proof. reflexivity. Qed.

(** C10.  Validation looks at the truthiness of [body] only.  Whatever the
    type of a truthy [body], the 422 is not raised and the request runs the
    same pipeline: the services that are switched on are called with that
    very value, and the backend is called unless the spam stage blocks. *)
Theorem truthy_body_accepted
    (W : collaborators) (backend : backend_fn) (attributes : value)
    (req : request) (res : response) (input body : value) :
  (forall c text o e, analyze W c text o = Throw e -> nullish e = false) ->
  (forall c comment e, checkSpam W c comment = Throw e -> nullish e = false) ->
  method req = "POST" ->
  json W req = Return input ->
  getProp input "body" = Return body ->
  truthy body = true ->
  let run := module_exports W backend attributes req res in
  route W backend attributes req res =
    (perspective <- perspective_stage W input ;;
     akismet <- akismet_stage W input req ;;
     deliver W backend attributes input perspective akismet req res) /\
  moderation_calls (fst run) =
    (if perspectiveEnabled W
     then [Analyze (perspective_client W) body analyze_options] else []) ++
    (if akismetEnabled W
     then [CheckSpam (akismet_client W req)
             (VObj [("user_ip", header req "remote-addr");
                    ("user_agent", header req "user-agent");
                    ("referrer", header req "referer");
                    ("comment_type", VStr "comment");
                    ("comment_content", body)])]
     else []) /\
  (spam_blocked W input req = false ->
   exists perspective akismet,
     backend_calls (fst run) =
       [(moderation_context input perspective akismet, req, res)] /\
     forall result,
       backend (moderation_context input perspective akismet) req res
         = Return result ->
       responses (fst run) =
         [(res, VNum 201, with_backend attributes [("result", result)])]) /\
  (spam_blocked W input req = true ->
   backend_calls (fst run) = [] /\
   responses (fst run) =
     [(res, VNum 400,
       VObj [("status", VNum 400); ("message", VStr "Spam detected.")])]).
Proof.
  intros Hra Hrc Hm Hj Hb Ht run.
  split; [apply (route_post_valid W backend attributes req res input body);
          assumption|].
  destruct (perspective_stage_total W Hra input body Hb)
    as (t1 & p & H1 & Q1 & M1 & _).
  destruct (akismet_stage_cases W Hrc input req body Hb)
    as (t2 & Q2 & M2 & [Hblock | (ak & H2 & _)]).
  - destruct (post_blocked W backend attributes req res input body t1 p t2
                Hm Hj Hb Ht H1 Q1 Hblock Q2) as (Hresp & Hcalls & Hmod).
    split; [|split].
    + subst run. rewrite Hmod, M1, M2. unfold spam_comment.
      now rewrite (or_else_truthy body (VStr "") Ht).
    + unfold spam_blocked. rewrite Hblock. discriminate.
    + intros _. split; assumption.
  - destruct (post_delivered W backend attributes req res input body
                t1 p t2 ak Hm Hj Hb Ht H1 Q1 H2 Q2)
      as (Hcalls & Hmod & Hresp).
    split; [|split].
    + subst run. rewrite Hmod, M1, M2. unfold spam_comment.
      now rewrite (or_else_truthy body (VStr "") Ht).
    + intros _. exists p, ak. split; [exact Hcalls|].
      intros result Hres. apply (Hresp result Hres).
    + unfold spam_blocked. rewrite H2. discriminate.
Qed.

Lemma truthy_body_accepted_witness :
  let W := Sample.world Sample.full_env
             (Return (VObj [("body", VArr [VNum 1; VNum 2])]))
             (Throw (TypeError "text must be a string"))
             (Return (VBool false)) in
  let input := VObj [("body", VArr [VNum 1; VNum 2])] in
  let run := module_exports W Sample.ok_backend Sample.email Sample.post 7 in
  moderation_calls (fst run) =
    [Analyze (perspective_client W) (VArr [VNum 1; VNum 2]) analyze_options;
     CheckSpam (akismet_client W Sample.post)
       (VObj [("user_ip", VUndefined);
              ("user_agent", VUndefined);
              ("referrer", VUndefined);
              ("comment_type", VStr "comment");
              ("comment_content", VArr [VNum 1; VNum 2])])] /\
  backend_calls (fst run) =
    [(moderation_context input VNull (VObj [("spam", VBool false)]),
      Sample.post, 7)].
Proof.
  intros W input run.
  destruct (truthy_body_accepted W Sample.ok_backend Sample.email
              Sample.post 7 input (VArr [VNum 1; VNum 2]))
    as (_ & Hmod & _ & _); try reflexivity.
  - intros c text o e H. injection H as <-. reflexivity.
  - intros c comment e H. discriminate H.
  - split; [exact Hmod | reflexivity].
Defined.

(** ** Traces of whole computations *)

Section Traces.

Variable P : event -> bool.

Lemma all_events_ret {A} (a : A) : all_events P (ret a).
Proof. reflexivity. Qed.

Lemma all_events_throw {A} e : all_events P (@throw A e).
Proof. reflexivity. Qed.

Lemma all_events_lift {A} (o : outcome A) : all_events P (lift o).
Proof. reflexivity. Qed.

Lemma all_events_emit ev : P ev = true -> all_events P (emit ev).
Proof. unfold all_events. simpl. now intros ->. Qed.

Lemma all_events_bind {A B} (m : M A) (k : A -> M B) :
  all_events P m -> (forall a, all_events P (k a)) -> all_events P (bind m k).
Proof.
  unfold all_events. destruct m as [t [a|e]]; simpl; intros Hm Hk; [|exact Hm].
  specialize (Hk a). destruct (k a) as [t' r]. simpl in *.
  rewrite forallb_app, Hm, Hk. reflexivity.
Qed.

Lemma all_events_try_catch {A} (m : M A) (h : value -> M A) :
  all_events P m -> (forall e, all_events P (h e)) ->
  all_events P (try_catch m h).
Proof.
  unfold all_events. destruct m as [t [a|e]]; simpl; intros Hm Hh; [exact Hm|].
  specialize (Hh e). destruct (h e) as [t' r]. simpl in *.
  rewrite forallb_app, Hm, Hh. reflexivity.
Qed.

Variable W : collaborators.

Hypothesis P_ConsoleError : forall v, P (ConsoleError v) = true.

Lemma all_events_log_and_continue e : all_events P (log_and_continue e).
Proof.
  unfold log_and_continue.
  apply all_events_bind; [apply all_events_lift|]. intros stack.
  apply all_events_bind; [|intros; apply all_events_ret].
  apply all_events_emit, P_ConsoleError.
Qed.

Lemma all_events_perspective_stage input :
  (perspectiveEnabled W = true ->
   forall c text o, P (Analyze c text o) = true) ->
  all_events P (perspective_stage W input).
Proof.
  intros HA. unfold perspective_stage.
  destruct (perspectiveEnabled W); [|apply all_events_ret].
  apply all_events_try_catch; [|apply all_events_log_and_continue].
  apply all_events_bind; [apply all_events_lift|]. intros text.
  apply all_events_bind; [apply all_events_emit, HA; reflexivity|]. intros _.
  apply all_events_bind; [apply all_events_lift|]. intros response.
  apply all_events_bind; [apply all_events_lift|]. intros toxicity.
  apply all_events_ret.
Qed.

Lemma all_events_akismet_stage input req :
  (akismetEnabled W = true ->
   forall c comment, P (CheckSpam c comment) = true) ->
  all_events P (akismet_stage W input req).
Proof.
  intros HC. unfold akismet_stage.
  destruct (akismetEnabled W); [|apply all_events_ret].
  apply all_events_bind.
  - apply all_events_try_catch; [|apply all_events_log_and_continue].
    apply all_events_bind; [apply all_events_lift|]. intros body.
    apply all_events_bind; [apply all_events_emit, HC; reflexivity|]. intros _.
    apply all_events_lift.
  - intros spam. destruct (negb (is_null spam)); [|apply all_events_ret].
    destruct (truthy spam && negb (allowSpam W));
      [apply all_events_throw | apply all_events_ret].
Qed.

Hypothesis P_Send : forall r st d, P (Send r st d) = true.

Lemma all_events_send res st d : all_events P (send W res st d).
Proof.
  unfold send. destruct (sendable W st); [|apply all_events_throw].
  apply all_events_bind; [apply all_events_emit, P_Send|].
  intros; apply all_events_ret.
Qed.

Lemma all_events_handleErrors (fn : handler) req res :
  all_events P (fn req res) -> all_events P (handleErrors W fn req res).
Proof.
  intros Hfn. unfold handleErrors. apply all_events_try_catch; [exact Hfn|].
  intros error. apply all_events_bind.
  - destruct (dev_mode W); [|apply all_events_ret].
    apply all_events_bind; [apply all_events_lift|]. intros stack.
    destruct (truthy stack); [|apply all_events_ret].
    apply all_events_emit, P_ConsoleError.
  - intros _. apply all_events_bind; [apply all_events_lift|]. intros sc.
    apply all_events_bind; [apply all_events_lift|]. intros msg.
    apply all_events_bind; [apply all_events_send|].
    intros; apply all_events_ret.
Qed.

Hypothesis P_SetHeader : forall r n c, P (SetHeader r n c) = true.
Hypothesis P_End : forall r, P (End r) = true.

Lemma all_events_cors (fn : handler) req res :
  all_events P (fn req res) -> all_events P (cors W fn req res).
Proof.
  intros Hfn. unfold cors. apply all_events_bind.
  - induction (corsHeaders W) as [|h hs IH]; cbn [fold_right];
      [apply all_events_ret|].
    apply all_events_bind; [apply all_events_emit, P_SetHeader|].
    intros _. exact IH.
  - intros _. destruct (String.eqb (method req) "OPTIONS"); [|exact Hfn].
    apply all_events_bind; [apply all_events_emit, P_End|].
    intros; apply all_events_ret.
Qed.

Variable backend : backend_fn.
Variable attributes : value.

Hypothesis P_Backend : forall c rq rs, P (Backend c rq rs) = true.

Lemma all_events_module_exports req res :
  (perspectiveEnabled W = true ->
   forall c text o, P (Analyze c text o) = true) ->
  (akismetEnabled W = true ->
   forall c comment, P (CheckSpam c comment) = true) ->
  all_events P (module_exports W backend attributes req res).
Proof.
  intros HA HC. unfold module_exports.
  apply all_events_handleErrors, all_events_cors. unfold route.
  destruct (String.eqb (method req) "GET"); [apply all_events_send|].
  destruct (String.eqb (method req) "POST"); [|apply all_events_throw].
  apply all_events_bind; [apply all_events_lift|]. intros input.
  apply all_events_bind; [apply all_events_lift|]. intros body.
  destruct (negb (truthy body)); [apply all_events_throw|].
  apply all_events_bind; [apply all_events_perspective_stage, HA|].
  intros perspective.
  apply all_events_bind; [apply all_events_akismet_stage, HC|].
  intros akismet. unfold deliver.
  apply all_events_bind; [apply all_events_emit, P_Backend|]. intros _.
  apply all_events_bind; [apply all_events_lift|]. intros result.
  apply all_events_send.
Qed.

End Traces.

(** ** Every path through the dispatcher *)

Lemma quiet_perspective_stage W input : quiet (fst (perspective_stage W input)).
Proof.
  apply (all_events_perspective_stage quiet_event W (fun _ => eq_refl) input).
  reflexivity.
Qed.

Lemma quiet_akismet_stage W input req :
  quiet (fst (akismet_stage W input req)).
Proof.
  apply (all_events_akismet_stage quiet_event W (fun _ => eq_refl) input req).
  reflexivity.
Qed.

Lemma getProp_throws_renderable W v k e :
  getProp v k = Throw e -> renderable W e = true.
Proof. destruct v; simpl; intros H; inversion H; reflexivity. Qed.

Lemma renderable_readable W e : renderable W e = true -> nullish e = false.
Proof. destruct e; simpl; intros H; try discriminate; reflexivity. Qed.

(** Whatever the guarded call did, a [try] with the logging [catch] throws
    only the [TypeError] of reading [stack] from [undefined] or [null]. *)
Lemma try_log_throws_renderable W (m : M value) :
  throws_renderable W (try_catch m log_and_continue).
Proof.
  unfold throws_renderable. destruct m as [t [a|e]]; simpl; [discriminate|].
  unfold log_and_continue. destruct (getProp e "stack") eqn:E; simpl.
  - discriminate.
  - intros e' H. injection H as <-.
    apply (getProp_throws_renderable W _ _ _ E).
Qed.

Lemma perspective_stage_throws_renderable W input :
  throws_renderable W (perspective_stage W input).
Proof.
  unfold perspective_stage. destruct (perspectiveEnabled W).
  - apply try_log_throws_renderable.
  - intros e H. discriminate H.
Qed.

Lemma akismet_stage_throws_renderable W input req :
  throws_renderable W (akismet_stage W input req).
Proof.
  unfold akismet_stage. destruct (akismetEnabled W);
    [|intros e H; discriminate H].
  match goal with
  | |- throws_renderable W (bind ?m _) =>
      pose proof (try_log_throws_renderable W
                    (body <- lift (getProp input "body") ;;
                     emit (CheckSpam (akismet_client W req)
                             (spam_comment req body)) ;;
                     lift (checkSpam W (akismet_client W req)
                             (spam_comment req body)))) as Hm;
      destruct m as [t [spam|e]] eqn:E
  end.
  - intros e. simpl.
    destruct (negb (is_null spam)); simpl; [|discriminate].
    destruct (truthy spam && negb (allowSpam W)); simpl; [|discriminate].
    intros H. injection H as <-. reflexivity.
  - intros e' H. simpl in H. injection H as <-. apply Hm. reflexivity.
Qed.

Section Paths.

Variable W : collaborators.
Variable backend : backend_fn.
Variable attributes : value.

(** The three ways the dispatcher ends: the GET answer, a throw before the
    backend was reached, or a request handed to [deliver]. *)
Lemma route_cases req res :
  (method req = "GET" /\
   exists d, route W backend attributes req res =
               ([Send res (VNum 200) d], Return VUndefined)) \/
  (exists t e,
     route W backend attributes req res = (t, Throw e) /\ quiet t /\
     (renderable W e = true \/ json W req = Throw e)) \/
  (exists input body t1 p t2 ak,
     method req = "POST" /\ json W req = Return input /\
     getProp input "body" = Return body /\ truthy body = true /\
     perspective_stage W input = (t1, Return p) /\ quiet t1 /\
     akismet_stage W input req = (t2, Return ak) /\ quiet t2).
Proof.
  unfold route. destruct (String.eqb (method req) "GET") eqn:HG.
  { left. split; [now apply String.eqb_eq|]. eexists. reflexivity. }
  right. destruct (String.eqb (method req) "POST") eqn:HP.
  2:{ left. do 2 eexists. split; [reflexivity|]. split; [reflexivity|].
      left. reflexivity. }
  apply String.eqb_eq in HP.
  destruct (json W req) as [input|e] eqn:Hj.
  2:{ left. exists [], e. repeat split. now right. }
  rewrite bind_lift_Return.
  destruct (getProp input "body") as [body|e] eqn:Hb.
  2:{ left. exists [], e. repeat split. left.
      apply (getProp_throws_renderable W _ _ _ Hb). }
  rewrite bind_lift_Return. destruct (truthy body) eqn:Ht; simpl negb; cbv iota.
  2:{ left. do 2 eexists. split; [reflexivity|]. split; [reflexivity|].
      left. reflexivity. }
  pose proof (quiet_perspective_stage W input) as Q1.
  pose proof (perspective_stage_throws_renderable W input) as R1.
  destruct (perspective_stage W input) as [t1 [p|e1]] eqn:H1.
  2:{ left. exists t1, e1. repeat split; [exact Q1|]. left. now apply R1. }
  pose proof (quiet_akismet_stage W input req) as Q2.
  pose proof (akismet_stage_throws_renderable W input req) as R2.
  destruct (akismet_stage W input req) as [t2 [ak|e2]] eqn:H2.
  - right. exists input, body, t1, p, t2, ak. repeat split; assumption.
  - left. exists (t1 ++ t2), e2. simpl in Q1, Q2.
    split; [|split].
    + reflexivity.
    + unfold quiet in *. rewrite forallb_app, Q1, Q2. reflexivity.
    + left. now apply R2.
Qed.

(** A preflight stops in [cors]. *)
Lemma module_exports_options req res :
  String.eqb (method req) "OPTIONS" = true ->
  module_exports W backend attributes req res =
    (cors_trace W res ++ [End res], Return VUndefined).
Proof.
  intros Hm. unfold module_exports, handleErrors, cors.
  rewrite cors_headers_run, Hm. reflexivity.
Qed.

(** What the outermost call makes of a throw in the dispatcher: an answer
    when the thrown value is one the boundary can answer for, and a throw
    of its own, with nothing sent, otherwise. *)
Lemma module_exports_Throw req res t e :
  String.eqb (method req) "OPTIONS" = false ->
  route W backend attributes req res = (t, Throw e) ->
  (renderable W e = true ->
   exists statusCode message,
     getProp e "statusCode" = Return statusCode /\
     getProp e "message" = Return message /\
     module_exports W backend attributes req res =
       (cors_trace W res ++ t ++ error_log W e ++
          [Send res (or_else statusCode (VNum 500))
             (VObj [("status", or_else statusCode (VNum 500));
                    ("message", message)])],
        Return VUndefined)) /\
  (renderable W e = false ->
   exists log x,
     quiet log /\
     module_exports W backend attributes req res =
       (cors_trace W res ++ t ++ log, Throw x)).
Proof.
  intros Hm Hr.
  assert (Hc : cors W (route W backend attributes) req res =
               (cors_trace W res ++ t, Throw e)).
  { rewrite (cors_run W _ req res Hm), Hr. reflexivity. }
  split; intros He.
  - pose proof (renderable_readable W e He) as Hn.
    destruct (getProp_defined e "statusCode" Hn) as [sc Hs].
    destruct (getProp_defined e "message" Hn) as [msg Hmsg].
    exists sc, msg. split; [exact Hs|]. split; [exact Hmsg|].
    unfold module_exports. unfold renderable in He. rewrite Hs in He.
    rewrite (handleErrors_Throw W _ req res _ e sc msg Hc Hs Hmsg He).
    now rewrite <- app_assoc.
  - unfold module_exports. destruct (nullish e) eqn:Hn.
    + destruct (handleErrors_nullish W _ req res _ e Hc Hn) as [m ->].
      exists [], (TypeError m). split; [reflexivity|].
      now rewrite app_nil_r.
    + destruct (getProp_defined e "statusCode" Hn) as [sc Hs].
      destruct (getProp_defined e "message" Hn) as [msg Hmsg].
      unfold renderable in He. rewrite Hs in He.
      rewrite (handleErrors_refused W _ req res _ e sc msg Hc Hs Hmsg He).
      exists (error_log W e), invalid_status.
      split; [apply quiet_error_log|]. now rewrite <- app_assoc.
Qed.

End Paths.

(** ** Further properties of the handler *)

(** The answer to a throw of the dispatcher whose value can be read and
    whose status a response can carry. *)
Lemma thrown_response W backend attributes req res t e statusCode message :
  String.eqb (method req) "OPTIONS" = false ->
  route W backend attributes req res = (t, Throw e) ->
  getProp e "statusCode" = Return statusCode ->
  getProp e "message" = Return message ->
  sendable W (or_else statusCode (VNum 500)) = true ->
  let run := module_exports W backend attributes req res in
  let status := or_else statusCode (VNum 500) in
  responses (fst run) =
    responses t ++
    [(res, status, VObj [("status", status); ("message", message)])] /\
  backend_calls (fst run) = backend_calls t /\
  moderation_calls (fst run) = moderation_calls t /\
  snd run = Return VUndefined.
Proof.
  intros Hm Hr Hs Hmsg Hok run status.
  assert (Hc : cors W (route W backend attributes) req res =
               (cors_trace W res ++ t, Throw e)).
  { rewrite (cors_run W _ req res Hm), Hr. reflexivity. }
  subst run. split; [|split; [|split]].
  - unfold module_exports.
    rewrite (handleErrors_Throw W _ req res _ e statusCode message
               Hc Hs Hmsg Hok).
    simpl fst.
    rewrite !responses_app, (quiet_responses _ (quiet_cors_trace W res)),
      (quiet_responses _ (quiet_error_log W e)).
    reflexivity.
  - rewrite (module_exports_backend_calls W backend attributes req res Hm), Hr.
    reflexivity.
  - rewrite (module_exports_moderation_calls W backend attributes req res Hm).
    rewrite Hr. reflexivity.
  - unfold module_exports.
    rewrite (handleErrors_Throw W _ req res _ e statusCode message
               Hc Hs Hmsg Hok).
    reflexivity.
Qed.

(** The same throw with a status no response can carry: [send] refuses it
    inside the [catch], so nothing is sent and the call throws. *)
Lemma thrown_refused W backend attributes req res t e statusCode message :
  String.eqb (method req) "OPTIONS" = false ->
  route W backend attributes req res = (t, Throw e) ->
  getProp e "statusCode" = Return statusCode ->
  getProp e "message" = Return message ->
  sendable W (or_else statusCode (VNum 500)) = false ->
  let run := module_exports W backend attributes req res in
  responses (fst run) = responses t /\
  backend_calls (fst run) = backend_calls t /\
  moderation_calls (fst run) = moderation_calls t /\
  snd run = Throw invalid_status.
Proof.
  intros Hm Hr Hs Hmsg Hno run.
  assert (Hc : cors W (route W backend attributes) req res =
               (cors_trace W res ++ t, Throw e)).
  { rewrite (cors_run W _ req res Hm), Hr. reflexivity. }
  subst run. split; [|split; [|split]].
  - unfold module_exports.
    rewrite (handleErrors_refused W _ req res _ e statusCode message
               Hc Hs Hmsg Hno).
    simpl fst.
    rewrite !responses_app, (quiet_responses _ (quiet_cors_trace W res)),
      (quiet_responses _ (quiet_error_log W e)).
    now rewrite app_nil_r.
  - rewrite (module_exports_backend_calls W backend attributes req res Hm), Hr.
    reflexivity.
  - rewrite (module_exports_moderation_calls W backend attributes req res Hm).
    rewrite Hr. reflexivity.
  - unfold module_exports.
    rewrite (handleErrors_refused W _ req res _ e statusCode message
               Hc Hs Hmsg Hno).
    reflexivity.
Qed.

(** X1.  A method other than GET, POST and OPTIONS is refused: the one
    response is a 405 whose message names the method, and neither a
    moderation service nor the backend is called. *)
Theorem unsupported_method_refused
    (W : collaborators) (backend : backend_fn) (attributes : value)
    (req : request) (res : response) :
  method req <> "GET" ->
  method req <> "POST" ->
  method req <> "OPTIONS" ->
  let run := module_exports W backend attributes req res in
  responses (fst run) =
    [(res, VNum 405,
      VObj [("status", VNum 405);
            ("message",
             VStr ("Method " ++ method req ++ " not allowed.")%string)])] /\
  backend_calls (fst run) = [] /\
  moderation_calls (fst run) = [] /\
  snd run = Return VUndefined.
Proof.
  intros HG HP HO run.
  apply String.eqb_neq in HG, HP, HO.
  assert (Hr : route W backend attributes req res =
               ([], Throw (createError 405
                  ("Method " ++ method req ++ " not allowed.")%string))).
  { unfold route. now rewrite HG, HP. }
  apply (thrown_response W backend attributes req res [] _
           (VNum 405)
           (VStr ("Method " ++ method req ++ " not allowed.")%string)
           HO Hr eq_refl eq_refl eq_refl).
Qed.

Lemma unsupported_method_refused_witness :
  let W := Sample.world Sample.full_env (Return Sample.feedback)
             (Return (Sample.scored (VNum 0.25))) (Return (VBool false)) in
  let run :=
    module_exports W Sample.ok_backend Sample.email
      (mkRequest "DELETE" [] "") 7 in
  responses (fst run) =
    [(7, VNum 405,
      VObj [("status", VNum 405);
            ("message", VStr "Method DELETE not allowed.")])] /\
  backend_calls (fst run) = [] /\
  moderation_calls (fst run) = [] /\
  snd run = Return VUndefined.
Proof.
  intros W run.
  apply (unsupported_method_refused W Sample.ok_backend Sample.email
           (mkRequest "DELETE" [] "") 7); discriminate.
Defined.

(** Method names are compared as they are: a lower-case [get] is refused. *)
Example lower_case_get_refused :
  let W := Sample.world Sample.bare_env (Return Sample.feedback)
             (Throw VNull) (Throw VNull) in
  responses
    (fst (module_exports W Sample.ok_backend VUndefined
            (mkRequest "get" [] "") 7)) =
    [(7, VNum 405,
      VObj [("status", VNum 405);
            ("message", VStr "Method get not allowed.")])].
Proof. reflexivity. Qed.

(** X2.  When [json] throws on a POST, its error is what the boundary
    works on: no service and no backend is called; when the status chosen
    from it (its [statusCode] when truthy, 500 otherwise) is one a response
    can carry, the one response has that status and the error's own
    message, and otherwise nothing is sent and the call throws. *)
Theorem unparsable_body_propagates
    (W : collaborators) (backend : backend_fn) (attributes : value)
    (req : request) (res : response) (e statusCode message : value) :
  method req = "POST" ->
  json W req = Throw e ->
  getProp e "statusCode" = Return statusCode ->
  getProp e "message" = Return message ->
  let run := module_exports W backend attributes req res in
  let status := if truthy statusCode then statusCode else VNum 500 in
  backend_calls (fst run) = [] /\
  moderation_calls (fst run) = [] /\
  (sendable W status = true ->
   responses (fst run) =
     [(res, status, VObj [("status", status); ("message", message)])] /\
   snd run = Return VUndefined) /\
  (sendable W status = false ->
   responses (fst run) = [] /\ exists x, snd run = Throw x).
Proof.
  intros Hm Hj Hs Hmsg run status.
  assert (Hr : route W backend attributes req res = ([], Throw e)).
  { unfold route. now rewrite Hm, Hj. }
  pose proof (post_not_options req Hm) as Hno.
  subst run. split; [|split; [|split]].
  - rewrite (module_exports_backend_calls W backend attributes req res Hno).
    now rewrite Hr.
  - rewrite (module_exports_moderation_calls W backend attributes req res Hno).
    now rewrite Hr.
  - intros Hok.
    destruct (thrown_response W backend attributes req res [] e
                statusCode message Hno Hr Hs Hmsg Hok)
      as (Hresp & _ & _ & Hret).
    split; [exact Hresp | exact Hret].
  - intros Hbad.
    destruct (thrown_refused W backend attributes req res [] e
                statusCode message Hno Hr Hs Hmsg Hbad)
      as (Hresp & _ & _ & Hret).
    split; [exact Hresp | exists invalid_status; exact Hret].
Qed.

Lemma unparsable_body_propagates_witness :
  let W := Sample.world Sample.full_env
             (Throw (createError 400 "Invalid JSON"))
             (Return (Sample.scored (VNum 0.25))) (Return (VBool false)) in
  let run := module_exports W Sample.ok_backend Sample.email Sample.post 7 in
  responses (fst run) =
    [(7, VNum 400,
      VObj [("status", VNum 400); ("message", VStr "Invalid JSON")])] /\
  backend_calls (fst run) = [] /\
  moderation_calls (fst run) = [] /\
  snd run = Return VUndefined.
Proof.
  intros W run.
  destruct (unparsable_body_propagates W Sample.ok_backend Sample.email
              Sample.post 7 (createError 400 "Invalid JSON")
              (VNum 400) (VStr "Invalid JSON")
              eq_refl eq_refl eq_refl eq_refl)
    as (Hcalls & Hmod & Hok & _).
  destruct (Hok eq_refl) as [Hresp Hret].
  repeat split; assumption.
Defined.

(** X3.  A parsed body that is [null] (or [undefined]) cannot be asked for
    its [body]: the request is answered with a 500, not with the 422 of a
    missing [body], and nothing else is called. *)
Theorem null_payload_is_server_error
    (W : collaborators) (backend : backend_fn) (attributes : value)
    (req : request) (res : response) (input : value) :
  method req = "POST" ->
  json W req = Return input ->
  nullish input = true ->
  let run := module_exports W backend attributes req res in
  (exists message,
     responses (fst run) =
       [(res, VNum 500,
         VObj [("status", VNum 500); ("message", VStr message)])]) /\
  backend_calls (fst run) = [] /\
  moderation_calls (fst run) = [] /\
  snd run = Return VUndefined.
Proof.
  intros Hm Hj Hn run.
  assert (Hr : exists message,
             route W backend attributes req res =
               ([], Throw (TypeError message))).
  { unfold route. rewrite Hm, Hj. simpl.
    destruct input; try discriminate Hn; eexists; reflexivity. }
  destruct Hr as [message Hr].
  destruct (thrown_response W backend attributes req res [] _
              VUndefined (VStr message)
              (post_not_options req Hm) Hr eq_refl eq_refl eq_refl)
    as (Hresp & Hcalls & Hmod & Hret).
  split; [exists message; exact Hresp|]. repeat split; assumption.
Qed.

Lemma null_payload_is_server_error_witness :
  let W := Sample.world Sample.full_env (Return VNull)
             (Return (Sample.scored (VNum 0.25))) (Return (VBool false)) in
  let run := module_exports W Sample.ok_backend Sample.email Sample.post 7 in
  (exists message,
     responses (fst run) =
       [(7, VNum 500,
         VObj [("status", VNum 500); ("message", VStr message)])]) /\
  backend_calls (fst run) = [] /\
  moderation_calls (fst run) = [] /\
  snd run = Return VUndefined.
Proof.
  intros W run.
  apply (null_payload_is_server_error W Sample.ok_backend Sample.email
           Sample.post 7 VNull); reflexivity.
Defined.

(** An event of the dispatcher is an event of the whole call. *)
Lemma route_event_in_run W backend attributes req res ev :
  String.eqb (method req) "OPTIONS" = false ->
  In ev (fst (route W backend attributes req res)) ->
  In ev (fst (module_exports W backend attributes req res)).
Proof.
  intros Hm Hin. unfold module_exports.
  destruct (handleErrors_appends W (cors W (route W backend attributes))
              req res) as (t' & -> & _).
  rewrite (cors_run W _ req res Hm). simpl fst.
  apply in_or_app. left. apply in_or_app. now right.
Qed.

Lemma console_lines_In v t : In (ConsoleError v) t -> In v (console_lines t).
Proof.
  intros H. unfold console_lines. apply in_flat_map.
  exists (ConsoleError v). split; [exact H|now left].
Qed.

(** The spam stage on a failed check, with what it logs. *)
Lemma akismet_stage_logs W input req body e stack :
  akismetEnabled W = true ->
  getProp input "body" = Return body ->
  checkSpam W (akismet_client W req) (spam_comment req body) = Throw e ->
  getProp e "stack" = Return stack ->
  akismet_stage W input req =
    ([CheckSpam (akismet_client W req) (spam_comment req body);
      ConsoleError (or_else stack e)], Return VNull).
Proof.
  intros Hen Hb Hc Hs. unfold akismet_stage, log_and_continue.
  rewrite Hen, Hb, bind_lift_Return, bind_emit, Hc. simpl.
  rewrite Hs. reflexivity.
Qed.

(** X4.  When the spam check is on and its call fails, the failure is
    written to the console (the error's stack, or the error itself when it
    has none) and the request goes on with [akismet = null]: the backend is
    called once, and a 201 follows when it returns. *)
Theorem spam_failure_absorbed
    (W : collaborators) (backend : backend_fn) (attributes : value)
    (req : request) (res : response) (input body e stack : value) :
  (forall c text o e', analyze W c text o = Throw e' -> nullish e' = false) ->
  method req = "POST" ->
  json W req = Return input ->
  getProp input "body" = Return body ->
  truthy body = true ->
  akismetEnabled W = true ->
  checkSpam W (akismet_client W req) (spam_comment req body) = Throw e ->
  getProp e "stack" = Return stack ->
  let run := module_exports W backend attributes req res in
  exists ctx,
    backend_calls (fst run) = [(ctx, req, res)] /\
    getProp ctx "akismet" = Return VNull /\
    In (or_else stack e) (console_lines (fst run)) /\
    forall result,
      backend ctx req res = Return result ->
      responses (fst run) =
        [(res, VNum 201, with_backend attributes [("result", result)])].
Proof.
  intros Hra Hm Hj Hb Ht Hen Hc Hs run.
  destruct (perspective_stage_total W Hra input body Hb)
    as (t1 & p & H1 & Q1 & _ & _).
  pose proof (akismet_stage_logs W input req body e stack Hen Hb Hc Hs) as H2.
  destruct (post_delivered W backend attributes req res input body _ _ _ _
              Hm Hj Hb Ht H1 Q1 H2 eq_refl) as (Hcalls & _ & Hresp).
  exists (moderation_context input p VNull).
  split; [exact Hcalls|]. split; [reflexivity|]. split.
  - apply console_lines_In.
    apply (route_event_in_run W backend attributes req res _
             (post_not_options req Hm)).
    rewrite (route_post_delivered W backend attributes req res input body
               _ _ _ _ Hm Hj Hb Ht H1 H2).
    simpl fst. apply in_or_app. right. right. now left.
  - intros result Hres. apply (Hresp result Hres).
Qed.

Lemma spam_failure_absorbed_witness :
  let W := Sample.world Sample.full_env (Return Sample.feedback)
             (Return (Sample.scored (VNum 0.25)))
             (Throw (createError 503 "akismet down")) in
  let run := module_exports W Sample.ok_backend Sample.email Sample.post 7 in
  exists ctx,
    backend_calls (fst run) = [(ctx, Sample.post, 7)] /\
    getProp ctx "akismet" = Return VNull /\
    In (VStr "Error: akismet down") (console_lines (fst run)) /\
    forall result,
      Sample.ok_backend ctx Sample.post 7 = Return result ->
      responses (fst run) =
        [(7, VNum 201, with_backend Sample.email [("result", result)])].
Proof.
  intros W run.
  apply (spam_failure_absorbed W Sample.ok_backend Sample.email Sample.post 7
           Sample.feedback (VStr "nice app!")
           (createError 503 "akismet down") (VStr "Error: akismet down"));
    try reflexivity.
  intros c text o e' H. discriminate H.
Defined.

(** X5.  A verdict that is falsy never blocks, whatever the allow-spam
    override says: the backend is called once, with [akismet = null] for a
    [null] verdict and [akismet = { spam: verdict }] otherwise. *)
Theorem falsy_verdict_never_blocks
    (W : collaborators) (backend : backend_fn) (attributes : value)
    (req : request) (res : response) (input body spam : value) :
  (forall c text o e, analyze W c text o = Throw e -> nullish e = false) ->
  method req = "POST" ->
  json W req = Return input ->
  getProp input "body" = Return body ->
  truthy body = true ->
  akismetEnabled W = true ->
  checkSpam W (akismet_client W req) (spam_comment req body) = Return spam ->
  truthy spam = false ->
  let run := module_exports W backend attributes req res in
  exists ctx,
    backend_calls (fst run) = [(ctx, req, res)] /\
    getProp ctx "akismet" =
      Return (if is_null spam then VNull else VObj [("spam", spam)]).
Proof.
  intros Hra Hm Hj Hb Ht Hen Hc Hspam run.
  destruct (perspective_stage_total W Hra input body Hb)
    as (t1 & p & H1 & Q1 & _ & _).
  pose proof (akismet_stage_verdict W input req body spam Hen Hb Hc) as H2.
  rewrite Hspam in H2. simpl in H2.
  assert (H2' : akismet_stage W input req =
                ([CheckSpam (akismet_client W req) (spam_comment req body)],
                 Return (if is_null spam then VNull
                         else VObj [("spam", spam)]))).
  { rewrite H2. now destruct (is_null spam). }
  destruct (post_delivered W backend attributes req res input body _ _ _ _
              Hm Hj Hb Ht H1 Q1 H2' eq_refl) as (Hcalls & _ & _).
  eexists. split; [exact Hcalls | reflexivity].
Qed.

Lemma falsy_verdict_never_blocks_witness :
  let W := Sample.world Sample.full_env (Return Sample.feedback)
             (Return (Sample.scored (VNum 0.25))) (Return (VBool false)) in
  let run := module_exports W Sample.ok_backend Sample.email Sample.post 7 in
  exists ctx,
    backend_calls (fst run) = [(ctx, Sample.post, 7)] /\
    getProp ctx "akismet" = Return (VObj [("spam", VBool false)]).
Proof.
  intros W run.
  apply (falsy_verdict_never_blocks W Sample.ok_backend Sample.email
           Sample.post 7 Sample.feedback (VStr "nice app!") (VBool false));
    try reflexivity.
  intros c text o e H. discriminate H.
Defined.

(** A verdict of [undefined] is not [null]: it is handed on as
    [{ spam: undefined }]. *)
Example undefined_verdict :
  let W := Sample.world Sample.full_env (Return Sample.feedback)
             (Return (Sample.scored (VNum 0.25))) (Return VUndefined) in
  backend_calls
    (fst (module_exports W Sample.ok_backend Sample.email Sample.post 7)) =
    [(moderation_context Sample.feedback
        (VObj [("toxicity", VNum 0.25)]) (VObj [("spam", VUndefined)]),
      Sample.post, 7)].
Proof. reflexivity. Qed.

(** X6.  An error thrown by the backend is what the boundary works on:
    the backend was called once and no 201 is sent.  When the status chosen
    from the error (its [statusCode] when truthy, 500 otherwise) is one a
    response can carry, the one response has that status and the error's
    own message; otherwise [send] refuses it, nothing is sent and the call
    throws. *)
Theorem backend_failure_propagates
    (W : collaborators) (backend : backend_fn) (attributes : value)
    (req : request) (res : response) (input body : value) :
  (forall c text o e, analyze W c text o = Throw e -> nullish e = false) ->
  (forall c comment e, checkSpam W c comment = Throw e -> nullish e = false) ->
  method req = "POST" ->
  json W req = Return input ->
  getProp input "body" = Return body ->
  truthy body = true ->
  spam_blocked W input req = false ->
  let run := module_exports W backend attributes req res in
  exists ctx,
    backend_calls (fst run) = [(ctx, req, res)] /\
    forall e statusCode message,
      backend ctx req res = Throw e ->
      getProp e "statusCode" = Return statusCode ->
      getProp e "message" = Return message ->
      let status := if truthy statusCode then statusCode else VNum 500 in
      (sendable W status = true ->
       responses (fst run) =
         [(res, status, VObj [("status", status); ("message", message)])] /\
       snd run = Return VUndefined) /\
      (sendable W status = false ->
       responses (fst run) = [] /\ exists x, snd run = Throw x).
Proof.
  intros Hra Hrc Hm Hj Hb Ht Hnb run.
  destruct (perspective_stage_total W Hra input body Hb)
    as (t1 & p & H1 & Q1 & _ & _).
  destruct (not_blocked_verdict W input body req Hrc Hb Hnb)
    as (t2 & ak & H2 & Q2 & _).
  destruct (post_delivered W backend attributes req res input body _ _ _ _
              Hm Hj Hb Ht H1 Q1 H2 Q2) as (Hcalls & _ & _).
  exists (moderation_context input p ak). split; [exact Hcalls|].
  intros e sc msg He Hs Hmsg status.
  pose proof (route_post_delivered W backend attributes req res input body
                _ _ _ _ Hm Hj Hb Ht H1 H2) as Hr.
  rewrite deliver_run, He in Hr. simpl in Hr.
  assert (Hquiet : responses
                     (t1 ++ t2 ++
                      [Backend (moderation_context input p ak) req res]) = []).
  { rewrite !responses_app, (quiet_responses _ Q1), (quiet_responses _ Q2).
    reflexivity. }
  subst run status. split.
  - intros Hok.
    destruct (thrown_response W backend attributes req res _ e sc msg
                (post_not_options req Hm) Hr Hs Hmsg Hok)
      as (Hresp & _ & _ & Hret).
    split; [|exact Hret]. rewrite Hresp, Hquiet. reflexivity.
  - intros Hbad.
    destruct (thrown_refused W backend attributes req res _ e sc msg
                (post_not_options req Hm) Hr Hs Hmsg Hbad)
      as (Hresp & _ & _ & Hret).
    split; [|exists invalid_status; exact Hret]. rewrite Hresp. exact Hquiet.
Qed.

Lemma backend_failure_propagates_witness :
  let W := Sample.world Sample.full_env (Return Sample.feedback)
             (Return (Sample.scored (VNum 0.25))) (Return (VBool false)) in
  let boom := createError 400 "Could not send email" in
  let late := createError 1000 "no such status" in
  (exists ctx,
     backend_calls
       (fst (module_exports W (Sample.failing_backend boom) Sample.email
               Sample.post 7)) = [(ctx, Sample.post, 7)]) /\
  responses
    (fst (module_exports W (Sample.failing_backend boom) Sample.email
            Sample.post 7)) =
    [(7, VNum 400,
      VObj [("status", VNum 400);
            ("message", VStr "Could not send email")])] /\
  responses
    (fst (module_exports W (Sample.failing_backend late) Sample.email
            Sample.post 7)) = [] /\
  exists x,
    snd (module_exports W (Sample.failing_backend late) Sample.email
           Sample.post 7) = Throw x.
Proof.
  intros W boom late.
  assert (Ha : forall c text o e, analyze W c text o = Throw e ->
                                  nullish e = false)
    by (intros c text o e H; discriminate H).
  assert (Hc : forall c comment e, checkSpam W c comment = Throw e ->
                                   nullish e = false)
    by (intros c comment e H; discriminate H).
  destruct (backend_failure_propagates W (Sample.failing_backend boom)
              Sample.email Sample.post 7 Sample.feedback (VStr "nice app!")
              Ha Hc eq_refl eq_refl eq_refl eq_refl eq_refl)
    as (ctx1 & Hcalls1 & Hrest1).
  destruct (backend_failure_propagates W (Sample.failing_backend late)
              Sample.email Sample.post 7 Sample.feedback (VStr "nice app!")
              Ha Hc eq_refl eq_refl eq_refl eq_refl eq_refl)
    as (ctx2 & _ & Hrest2).
  destruct (Hrest1 boom (VNum 400) (VStr "Could not send email")
              eq_refl eq_refl eq_refl) as [Hok _].
  destruct (Hrest2 late (VNum 1000) (VStr "no such status")
              eq_refl eq_refl eq_refl) as [_ Hbad].
  split; [exists ctx1; exact Hcalls1|].
  split; [exact (proj1 (Hok eq_refl))|].
  exact (Hbad eq_refl).
Defined.

Lemma filter_none {A} (f : A -> bool) (l : list A) :
  forallb (fun x => negb (f x)) l = true -> filter f l = [].
Proof.
  induction l as [|x l IH]; simpl; [reflexivity|].
  intros H. apply andb_prop in H as [Hx Hl].
  destruct (f x); [discriminate Hx | exact (IH Hl)].
Qed.

(** X7.  A check that is switched off is never attempted, whatever the
    request and however it ends: with [perspectiveEnabled] false the
    Perspective client is not called, with [akismetEnabled] false the
    Akismet client is not called. *)
Theorem disabled_checks_not_called
    (W : collaborators) (backend : backend_fn) (attributes : value)
    (req : request) (res : response) :
  let run := module_exports W backend attributes req res in
  (perspectiveEnabled W = false -> analyze_calls (fst run) = []) /\
  (akismetEnabled W = false -> checkSpam_calls (fst run) = []).
Proof.
  intros run. split; intros Hoff; apply filter_none.
  - apply (all_events_module_exports (fun ev => negb (is_analyze ev)) W);
      try reflexivity.
    intros Hon. rewrite Hoff in Hon. discriminate Hon.
  - apply (all_events_module_exports (fun ev => negb (is_checkSpam ev)) W);
      try reflexivity.
    intros Hon. rewrite Hoff in Hon. discriminate Hon.
Qed.

Lemma disabled_checks_not_called_witness :
  let W := Sample.world Sample.bare_env (Return Sample.feedback)
             (Return (Sample.scored (VNum 0.25))) (Return (VBool true)) in
  let run := module_exports W Sample.ok_backend Sample.email Sample.post 7 in
  analyze_calls (fst run) = [] /\ checkSpam_calls (fst run) = [].
Proof.
  intros W run.
  destruct (disabled_checks_not_called W Sample.ok_backend Sample.email
              Sample.post 7) as [Ha Hc].
  split; [apply Ha | apply Hc]; reflexivity.
Defined.

(** X8.  The backend is reached only through validation and moderation,
    and at most once: for any request, either the backend is not called,
    or the request is a POST whose parsed body has a truthy [body], the
    spam stage did not block, and the backend was called exactly once with
    that parsed body as [input]. *)
Theorem backend_gated
    (W : collaborators) (backend : backend_fn) (attributes : value)
    (req : request) (res : response) :
  let run := module_exports W backend attributes req res in
  backend_calls (fst run) = [] \/
  exists input body ctx,
    method req = "POST" /\
    json W req = Return input /\
    getProp input "body" = Return body /\
    truthy body = true /\
    spam_blocked W input req = false /\
    backend_calls (fst run) = [(ctx, req, res)] /\
    getProp ctx "input" = Return input.
Proof.
  intros run. subst run.
  destruct (String.eqb (method req) "OPTIONS") eqn:HO.
  { left. rewrite (module_exports_options W backend attributes req res HO).
    simpl fst. rewrite backend_calls_app,
      (quiet_backend_calls _ (quiet_cors_trace W res)). reflexivity. }
  destruct (route_cases W backend attributes req res)
    as [(_ & d & Hr) | [(t & e & Hr & Q & _) |
        (input & body & t1 & p & t2 & ak &
         Hm & Hj & Hb & Ht & H1 & Q1 & H2 & Q2)]].
  - left.
    rewrite (module_exports_backend_calls W backend attributes req res HO).
    rewrite Hr. reflexivity.
  - left.
    rewrite (module_exports_backend_calls W backend attributes req res HO).
    rewrite Hr. apply (quiet_backend_calls _ Q).
  - right. exists input, body, (moderation_context input p ak).
    destruct (post_delivered W backend attributes req res input body _ _ _ _
                Hm Hj Hb Ht H1 Q1 H2 Q2) as (Hcalls & _ & _).
    repeat split; try assumption.
    unfold spam_blocked. now rewrite H2.
Qed.

(** The two ways a call ends when it is not a preflight: one answer and a
    normal return, or no answer and a throw, because [json] or the backend
    threw a value the boundary cannot answer for. *)
Lemma run_outcome W backend attributes req res :
  String.eqb (method req) "OPTIONS" = false ->
  let run := module_exports W backend attributes req res in
  (exists st d,
     responses (fst run) = [(res, st, d)] /\ snd run = Return VUndefined) \/
  (responses (fst run) = [] /\
   exists e x,
     renderable W e = false /\ snd run = Throw x /\
     (json W req = Throw e \/ exists ctx, backend ctx req res = Throw e)).
Proof.
  intros HO run. subst run.
  assert (Hthrow : forall t e,
    route W backend attributes req res = (t, Throw e) ->
    responses t = [] ->
    (renderable W e = false ->
     json W req = Throw e \/ exists ctx, backend ctx req res = Throw e) ->
    (exists st d,
       responses (fst (module_exports W backend attributes req res)) =
         [(res, st, d)] /\
       snd (module_exports W backend attributes req res) = Return VUndefined)
    \/
    (responses (fst (module_exports W backend attributes req res)) = [] /\
     exists e x,
       renderable W e = false /\
       snd (module_exports W backend attributes req res) = Throw x /\
       (json W req = Throw e \/ exists ctx, backend ctx req res = Throw e))).
  { intros t e Hr Ht Hsrc.
    destruct (module_exports_Throw W backend attributes req res t e HO Hr)
      as [Hok Hbad].
    destruct (renderable W e) eqn:He.
    - left. destruct (Hok eq_refl) as (sc & msg & _ & _ & Hrun).
      rewrite Hrun. simpl fst. simpl snd. do 2 eexists.
      rewrite !responses_app, (quiet_responses _ (quiet_cors_trace W res)),
        Ht, (quiet_responses _ (quiet_error_log W e)).
      split; reflexivity.
    - right. destruct (Hbad eq_refl) as (log & x & Qlog & Hrun).
      rewrite Hrun. simpl fst. simpl snd.
      rewrite !responses_app, (quiet_responses _ (quiet_cors_trace W res)),
        Ht, (quiet_responses _ Qlog).
      split; [reflexivity|]. exists e, x. auto. }
  destruct (route_cases W backend attributes req res)
    as [(_ & d & Hr) | [(t & e & Hr & Q & Hsrc) |
        (input & body & t1 & p & t2 & ak &
         Hm & Hj & Hb & Ht & H1 & Q1 & H2 & Q2)]].
  - left.
    rewrite (module_exports_Return W backend attributes req res _ _ HO Hr).
    simpl fst. simpl snd. do 2 eexists.
    rewrite responses_app, (quiet_responses _ (quiet_cors_trace W res)).
    split; reflexivity.
  - apply (Hthrow t e Hr (quiet_responses _ Q)).
    intros He. destruct Hsrc as [Hsrc|Hsrc]; [congruence | now left].
  - pose proof (route_post_delivered W backend attributes req res input body
                  _ _ _ _ Hm Hj Hb Ht H1 H2) as Hr.
    rewrite deliver_run in Hr.
    destruct (backend (moderation_context input p ak) req res)
      as [result|e] eqn:Hbk; simpl in Hr.
    + left.
      rewrite (module_exports_Return W backend attributes req res _ _ HO Hr).
      simpl fst. simpl snd. do 2 eexists.
      rewrite !responses_app, (quiet_responses _ (quiet_cors_trace W res)),
        (quiet_responses _ Q1), (quiet_responses _ Q2).
      split; reflexivity.
    + apply (Hthrow _ e Hr).
      * rewrite !responses_app, (quiet_responses _ Q1),
          (quiet_responses _ Q2). reflexivity.
      * intros _. right. eexists. exact Hbk.
Qed.

(** X9.  No request is answered twice, and never on another response
    object: whatever the collaborators do, the call completes no [send] or
    exactly one, on the [res] it was given.  (A [send] that is refused
    writes nothing; the results a backend returns here are values
    [JSON.stringify] accepts.) *)
Theorem at_most_one_response
    (W : collaborators) (backend : backend_fn) (attributes : value)
    (req : request) (res : response) :
  let run := module_exports W backend attributes req res in
  responses (fst run) = [] \/
  exists status data, responses (fst run) = [(res, status, data)].
Proof.
  intros run. subst run.
  destruct (String.eqb (method req) "OPTIONS") eqn:HO.
  - left. rewrite (module_exports_options W backend attributes req res HO).
    simpl fst. rewrite responses_app,
      (quiet_responses _ (quiet_cors_trace W res)). reflexivity.
  - destruct (run_outcome W backend attributes req res HO)
      as [(st & d & Hresp & _) | (Hnone & _)].
    + right. exists st, d. exact Hresp.
    + left. exact Hnone.
Qed.

(** X10.  The call always answers and never throws, provided whatever
    [json] or the backend throws is a value the boundary can answer for
    (its properties can be read and the status chosen from it is one a
    response can carry): for any method other than OPTIONS there is exactly
    one response and the call returns normally, whatever the two moderation
    clients do. *)
Theorem always_answers
    (W : collaborators) (backend : backend_fn) (attributes : value)
    (req : request) (res : response) :
  method req <> "OPTIONS" ->
  (forall e, json W req = Throw e -> renderable W e = true) ->
  (forall ctx e, backend ctx req res = Throw e -> renderable W e = true) ->
  let run := module_exports W backend attributes req res in
  (exists status data, responses (fst run) = [(res, status, data)]) /\
  snd run = Return VUndefined.
Proof.
  intros HO Hj Hb run. apply String.eqb_neq in HO.
  destruct (run_outcome W backend attributes req res HO)
    as [(st & d & Hresp & Hret) |
        (_ & e & x & He & _ & [Hsrc | (ctx & Hsrc)])].
  - split; [exists st, d; exact Hresp | exact Hret].
  - rewrite (Hj e Hsrc) in He. discriminate He.
  - rewrite (Hb ctx e Hsrc) in He. discriminate He.
Qed.

Lemma always_answers_witness :
  let W := Sample.world Sample.full_env (Return Sample.feedback)
             (Throw VUndefined) (Throw VNull) in
  let boom := createError 503 "mail server down" in
  let run :=
    module_exports W (Sample.failing_backend boom) Sample.email
      Sample.post 7 in
  (exists status data, responses (fst run) = [(7, status, data)]) /\
  snd run = Return VUndefined.
Proof.
  intros W boom run.
  apply (always_answers W (Sample.failing_backend boom) Sample.email
           Sample.post 7).
  - discriminate.
  - intros e H. discriminate H.
  - intros ctx e H. injection H as <-. reflexivity.
Defined.

(** X11.  The boundary cannot render [undefined] or [null]: when the
    wrapped function throws one of them, the [catch] block itself throws a
    [TypeError] on its first property read, nothing is sent and nothing is
    logged. *)
Theorem thrown_null_escapes
    (W : collaborators) (fn : handler) (req : request) (res : response)
    (t : list event) (e : value) :
  fn req res = (t, Throw e) ->
  nullish e = true ->
  let run := handleErrors W fn req res in
  fst run = t /\
  exists message, snd run = Throw (TypeError message).
Proof.
  intros H He run. subst run.
  destruct (handleErrors_nullish W fn req res t e H He) as [m Hrun].
  rewrite Hrun. split; [reflexivity|]. exists m. reflexivity.
Qed.

Lemma thrown_null_escapes_witness :
  let W := Sample.world Sample.bare_env (Return Sample.feedback)
             (Throw VNull) (Throw VNull) in
  let run :=
    module_exports W (Sample.failing_backend VNull) Sample.email
      Sample.post 7 in
  responses (fst run) = [] /\
  exists message, snd run = Throw (TypeError message).
Proof.
  intros W run.
  destruct (thrown_null_escapes W
              (cors W (route W (Sample.failing_backend VNull) Sample.email))
              Sample.post 7
              (fst (cors W (route W (Sample.failing_backend VNull)
                              Sample.email) Sample.post 7))
              VNull eq_refl eq_refl) as (Htrace & Hthrow).
  split; [|exact Hthrow].
  unfold run, module_exports. rewrite Htrace. reflexivity.
Defined.

(** X12.  The logging [catch] of the toxicity stage reads [error.stack]
    first, so a Perspective client that rejects with [undefined] or [null]
    is not absorbed: the request ends in a 500, the spam check is not
    attempted and the backend is not called. *)
Theorem null_rejection_not_absorbed
    (W : collaborators) (backend : backend_fn) (attributes : value)
    (req : request) (res : response) (input body e : value) :
  method req = "POST" ->
  json W req = Return input ->
  getProp input "body" = Return body ->
  truthy body = true ->
  perspectiveEnabled W = true ->
  analyze W (perspective_client W) body analyze_options = Throw e ->
  nullish e = true ->
  let run := module_exports W backend attributes req res in
  (exists message,
     responses (fst run) =
       [(res, VNum 500,
         VObj [("status", VNum 500); ("message", VStr message)])]) /\
  backend_calls (fst run) = [] /\
  moderation_calls (fst run) =
    [Analyze (perspective_client W) body analyze_options].
Proof.
  intros Hm Hj Hb Ht Hen Ha He run.
  assert (H1 : exists message,
             perspective_stage W input =
               ([Analyze (perspective_client W) body analyze_options],
                Throw (TypeError message))).
  { unfold perspective_stage, log_and_continue.
    rewrite Hen, Hb, bind_lift_Return, bind_emit, Ha. simpl.
    destruct e; try discriminate He; eexists; reflexivity. }
  destruct H1 as [message H1].
  assert (Hr : route W backend attributes req res =
               ([Analyze (perspective_client W) body analyze_options],
                Throw (TypeError message))).
  { rewrite (route_post_valid W backend attributes req res input body
               Hm Hj Hb Ht).
    apply (bind_Throw _ _ _ _ H1). }
  destruct (thrown_response W backend attributes req res _ _
              VUndefined (VStr message)
              (post_not_options req Hm) Hr eq_refl eq_refl eq_refl)
    as (Hresp & Hcalls & Hmod & _).
  split; [exists message; exact Hresp|]. split; assumption.
Qed.

Lemma null_rejection_not_absorbed_witness :
  let W := Sample.world Sample.full_env (Return Sample.feedback)
             (Throw VUndefined) (Return (VBool false)) in
  let run := module_exports W Sample.ok_backend Sample.email Sample.post 7 in
  (exists message,
     responses (fst run) =
       [(7, VNum 500,
         VObj [("status", VNum 500); ("message", VStr message)])]) /\
  backend_calls (fst run) = [] /\
  moderation_calls (fst run) =
    [Analyze (perspective_client W) (VStr "nice app!") analyze_options].
Proof.
  intros W run.
  apply (null_rejection_not_absorbed W Sample.ok_backend Sample.email
           Sample.post 7 Sample.feedback (VStr "nice app!") VUndefined);
    reflexivity.
Defined.

(** A setting as [Boolean(v && w !== 'false')] sees it. *)
Lemma flag_rule (W : collaborators) (key toggle : string) :
  truthy (process_env W key) && not_false_string (process_env W toggle) = true
  <->
  (exists k, env W key = Some k /\ k <> "") /\ env W toggle <> Some "false".
Proof.
  unfold process_env. split.
  - intros H. apply andb_prop in H as [Hk Ht]. split.
    + destruct (env W key) as [k|]; [|discriminate Hk].
      exists k. split; [reflexivity|]. simpl in Hk.
      intros ->. discriminate Hk.
    + destruct (env W toggle) as [s|]; [|discriminate].
      simpl in Ht. intros Heq. injection Heq as ->. discriminate Ht.
  - intros [(k & Hk & Hne) Ht]. rewrite Hk. simpl.
    apply String.eqb_neq in Hne. rewrite Hne. simpl.
    destruct (env W toggle) as [s|]; [|reflexivity]. simpl.
    destruct (String.eqb_spec s "false") as [->|_]; [|reflexivity].
    now elim Ht.
Qed.

(** X13.  A check is on exactly when its API key is set to a non-empty
    string and its [_ENABLED] variable is not the string [false]: leaving
    the variable unset, or setting it to anything else, keeps the check
    on. *)
Theorem feature_flags_rule (W : collaborators) :
  (perspectiveEnabled W = true <->
   (exists k, env W "PERSPECTIVE_API_KEY" = Some k /\ k <> "") /\
   env W "PERSPECTIVE_ENABLED" <> Some "false") /\
  (akismetEnabled W = true <->
   (exists k, env W "AKISMET_API_KEY" = Some k /\ k <> "") /\
   env W "AKISMET_ENABLED" <> Some "false").
Proof. split; apply flag_rule. Qed.

(** X14.  The allow-spam override is active exactly when [ALLOW_SPAM] is
    set to a non-empty string other than [false]; in particular [0] or
    [no] activate it. *)
Theorem allow_spam_rule (W : collaborators) :
  allowSpam W = true <->
  exists s, env W "ALLOW_SPAM" = Some s /\ s <> "" /\ s <> "false".
Proof.
  unfold allowSpam. rewrite flag_rule. split.
  - intros [(s & Hs & Hne) Hnf]. exists s. repeat split; try assumption.
    intros ->. now apply Hnf.
  - intros (s & Hs & Hne & Hnf). split; [exists s; auto|].
    rewrite Hs. intros Heq. injection Heq as ->. now apply Hnf.
Qed.

Example allow_spam_zero :
  allowSpam (Sample.world
               (fun name => if String.eqb name "ALLOW_SPAM" then Some "0"
                            else None)
               (Return Sample.feedback) (Throw VNull) (Throw VNull)) = true.
Proof. reflexivity. Qed.

(** X15.  The order of a fully moderated POST: with both checks on, a
    readable score and a verdict that does not block, the call sets the
    cross-origin headers, asks Perspective, then Akismet, then calls the
    backend with both results, then sends the 201; nothing is logged. *)
Theorem moderated_post_trace
    (W : collaborators) (backend : backend_fn) (attributes : value)
    (req : request) (res : response)
    (input body r score spam result : value) :
  method req = "POST" ->
  json W req = Return input ->
  getProp input "body" = Return body ->
  truthy body = true ->
  perspectiveEnabled W = true ->
  akismetEnabled W = true ->
  analyze W (perspective_client W) body analyze_options = Return r ->
  score_of r = Return score ->
  checkSpam W (akismet_client W req) (spam_comment req body) = Return spam ->
  is_null spam = false ->
  truthy spam = false \/ allowSpam W = true ->
  let ctx :=
    moderation_context input (VObj [("toxicity", score)])
      (VObj [("spam", spam)]) in
  backend ctx req res = Return result ->
  module_exports W backend attributes req res =
    (cors_trace W res ++
     [Analyze (perspective_client W) body analyze_options;
      CheckSpam (akismet_client W req) (spam_comment req body);
      Backend ctx req res;
      Send res (VNum 201) (with_backend attributes [("result", result)])],
     Return VUndefined).
Proof.
  intros Hm Hj Hb Ht Hp Ha Han Hs Hc Hnn Hpass ctx Hbk.
  pose proof (perspective_stage_success W input body r score Hp Hb Han Hs)
    as H1.
  pose proof (akismet_stage_verdict W input req body spam Ha Hb Hc) as H2.
  rewrite Hnn in H2. simpl in H2.
  assert (Hgo : truthy spam && negb (allowSpam W) = false).
  { destruct Hpass as [-> | ->]; [reflexivity | apply andb_false_r]. }
  rewrite Hgo in H2.
  pose proof (route_post_delivered W backend attributes req res input body
                _ _ _ _ Hm Hj Hb Ht H1 H2) as Hr.
  rewrite deliver_run in Hr. fold ctx in Hr. rewrite Hbk in Hr. simpl in Hr.
  apply (module_exports_Return W backend attributes req res _ _
           (post_not_options req Hm) Hr).
Qed.

Lemma moderated_post_trace_witness :
  let W := Sample.world Sample.full_env (Return Sample.feedback)
             (Return (Sample.scored (VNum 0.25))) (Return (VBool false)) in
  let ctx :=
    moderation_context Sample.feedback (VObj [("toxicity", VNum 0.25)])
      (VObj [("spam", VBool false)]) in
  module_exports W Sample.ok_backend Sample.email Sample.post 7 =
    (cors_trace W 7 ++
     [Analyze (perspective_client W) (VStr "nice app!") analyze_options;
      CheckSpam (akismet_client W Sample.post)
        (spam_comment Sample.post (VStr "nice app!"));
      Backend ctx Sample.post 7;
      Send 7 (VNum 201)
        (with_backend Sample.email
           [("result", VObj [("status", VStr "ok")])])],
     Return VUndefined).
Proof.
  intros W ctx.
  apply (moderated_post_trace W Sample.ok_backend Sample.email Sample.post 7
           Sample.feedback (VStr "nice app!") (Sample.scored (VNum 0.25))
           (VNum 0.25) (VBool false) (VObj [("status", VStr "ok")]));
    try reflexivity.
  left. reflexivity.
Defined.

Lemma console_lines_app t1 t2 :
  console_lines (t1 ++ t2) = console_lines t1 ++ console_lines t2.
Proof. apply flat_map_app. Qed.

Lemma dev_mode_iff W : dev_mode W = true <-> env W "NODE_ENV" = Some "dev".
Proof.
  unfold dev_mode, process_env. destruct (env W "NODE_ENV") as [s|].
  - rewrite String.eqb_eq. split; [now intros -> | congruence].
  - split; discriminate.
Qed.

(** X16.  The boundary writes to the console only when [NODE_ENV] is
    [dev]: then it logs the thrown value's stack, if it has one, and
    otherwise it logs nothing. *)
Theorem boundary_logs_in_dev_only
    (W : collaborators) (fn : handler) (req : request) (res : response)
    (t : list event) (e stack : value) :
  fn req res = (t, Throw e) ->
  getProp e "stack" = Return stack ->
  let run := handleErrors W fn req res in
  (env W "NODE_ENV" = Some "dev" ->
   console_lines (fst run) =
     console_lines t ++ (if truthy stack then [stack] else [])) /\
  (env W "NODE_ENV" <> Some "dev" ->
   console_lines (fst run) = console_lines t).
Proof.
  intros H Hst run. subst run.
  pose proof (getProp_Return_not_nullish _ _ _ Hst) as He.
  destruct (getProp_defined e "statusCode" He) as [sc Hs].
  destruct (getProp_defined e "message" He) as [msg Hmsg].
  rewrite (handleErrors_catch W fn req res t e sc msg H Hs Hmsg).
  simpl fst. rewrite !console_lines_app.
  assert (Hsent : console_lines
                    (fst (send W res (or_else sc (VNum 500))
                            (VObj [("status", or_else sc (VNum 500));
                                   ("message", msg)]))) = []).
  { unfold send. now destruct (sendable W (or_else sc (VNum 500))). }
  rewrite Hsent, app_nil_r. unfold error_log. rewrite Hst.
  split; intros Henv.
  - apply dev_mode_iff in Henv. rewrite Henv.
    destruct (truthy stack); reflexivity.
  - destruct (dev_mode W) eqn:Hd.
    + apply dev_mode_iff in Hd. contradiction.
    + simpl. now rewrite app_nil_r.
Qed.

Lemma boundary_logs_in_dev_only_witness :
  let W := Sample.world Sample.full_env (Return Sample.feedback)
             (Return (Sample.scored (VNum 0.25))) (Return (VBool false)) in
  let boom := createError 400 "Could not send email" in
  console_lines
    (fst (module_exports W (Sample.failing_backend boom) Sample.email
            Sample.post 7)) =
    [VStr "Error: Could not send email"].
Proof.
  intros W boom.
  destruct (boundary_logs_in_dev_only W
              (cors W (route W (Sample.failing_backend boom) Sample.email))
              Sample.post 7
              (fst (cors W (route W (Sample.failing_backend boom)
                              Sample.email) Sample.post 7))
              boom (VStr "Error: Could not send email")
              eq_refl eq_refl) as [Hdev _].
  exact (Hdev eq_refl).
Defined.

Lemma lookup_assign_same k v fields : lookup k (assign k v fields) = Some v.
Proof.
  induction fields as [|[k' v'] rest IH]; simpl.
  - now rewrite String.eqb_refl.
  - destruct (String.eqb k k') eqn:E; simpl.
    + now rewrite String.eqb_refl.
    + now rewrite E.
Qed.

Lemma lookup_assign_other k k0 v fields :
  k0 <> k -> lookup k0 (assign k v fields) = lookup k0 fields.
Proof.
  intros Hne. induction fields as [|[k' v'] rest IH]; simpl.
  - apply String.eqb_neq in Hne. now rewrite Hne.
  - destruct (String.eqb k k') eqn:E; simpl.
    + apply String.eqb_eq in E. subst k'.
      apply String.eqb_neq in Hne. now rewrite Hne.
    + destruct (String.eqb k0 k'); [reflexivity | exact IH].
Qed.

(** X17.  Attaching the backend's attributes to a response object touches
    the [backend] property only: it reads back as the attributes when they
    are truthy and stays absent otherwise, and every other property reads
    as before. *)
Theorem with_backend_reads
    (attributes : value) (fields : list (string * value)) (k : string) :
  lookup "backend" fields = None ->
  getProp (with_backend attributes fields) k =
    if String.eqb k "backend"
    then Return (if truthy attributes then attributes else VUndefined)
    else getProp (VObj fields) k.
Proof.
  intros Hfresh. unfold with_backend. simpl.
  destruct (String.eqb_spec k "backend") as [->|Hne].
  - destruct (truthy attributes).
    + now rewrite lookup_assign_same.
    + now rewrite Hfresh.
  - destruct (truthy attributes); [|reflexivity].
    now rewrite (lookup_assign_other "backend" k attributes fields Hne).
Qed.

Lemma with_backend_reads_witness :
  getProp (with_backend Sample.email [("result", VStr "sent")]) "backend"
    = Return Sample.email /\
  getProp (with_backend Sample.email [("result", VStr "sent")]) "result"
    = Return (VStr "sent") /\
  getProp (with_backend VNull [("result", VStr "sent")]) "backend"
    = Return VUndefined.
Proof.
  split; [|split].
  - apply (with_backend_reads Sample.email [("result", VStr "sent")]
             "backend" eq_refl).
  - apply (with_backend_reads Sample.email [("result", VStr "sent")]
             "result" eq_refl).
  - apply (with_backend_reads VNull [("result", VStr "sent")]
             "backend" eq_refl).
Defined.
